(** * observable_primitives: observable integers and their condition observers

    A shallow embedding of
      - [observables/numeric_base.py]  (class [ObservableNumeric]),
      - [observables/integer.py]       (class [ObservableInteger]),
      - [observers/integer.py]         (classes [IntegerConditionObserver] and
                                        [CounterConditionObserver]),
    together with the part of the host language (Python 3) these files rest on:
    integers, binary64 floats, exceptions, keyword-argument binding, string
    formatting and hashing.

    Python integers are [Z]; Python floats are the kernel's binary64 [float];
    an exception is a value of [Py.exn]; a method of a mutable object is a
    function from the object's state to the state it leaves and what the call
    produced (a returned value or a raised exception).

    The wrapper holds, and is operated with, integers and floats. The
    observers watch integers and have integer thresholds, as their docstring
    types them. The classes [Observable] and [ConditionObserver] are not among
    the sources: the hub is the record of what it was invoked with, the
    observer base the three attributes it stores. [pow] and the [repr] of a
    float depend on the C library and are parameters ([Py.Host]), as is the
    key of the string hash; [__format__] is left out. *)

From Stdlib Require Import ZArith Floats String Ascii List Bool Lia DecimalString.
Import ListNotations.

#[local] Open Scope string_scope.
#[local] Open Scope Z_scope.

(* ================================================================== *)
(** * The host language *)
(* ================================================================== *)

Module Py.

(** ** Exceptions and results *)

Inductive exn_kind :=
| TypeError
| ValueError
| ZeroDivisionError
| OverflowError
| IndexError
| AttributeError
| MemoryError
| NotImplementedError.

(** An exception: its class and, where the message is fixed by the modelled
    source, its message ([None] for the host's own messages). *)
Record exn := mk_exn { exn_class : exn_kind; exn_message : option string }.

Definition host_error (k : exn_kind) : exn := mk_exn k None.

Inductive result (A : Type) :=
| Ok (a : A)
| Raise (e : exn).

Arguments Ok {A} a.
Arguments Raise {A} e.

Definition bind {A B} (r : result A) (k : A -> result B) : result B :=
  match r with
  | Ok a => k a
  | Raise e => Raise e
  end.

Definition is_ok {A} (r : result A) : bool :=
  match r with Ok _ => true | Raise _ => false end.

(** ** Numbers *)

Inductive number :=
| PyInt (z : Z)
| PyFloat (f : float).

(** [isinstance(v, int)] *)
Definition isinstance_int (v : number) : bool :=
  match v with PyInt _ => true | PyFloat _ => false end.

(** [f"{type(v)}"] *)
Definition type_repr (v : number) : string :=
  match v with
  | PyInt _ => "<class 'int'>"
  | PyFloat _ => "<class 'float'>"
  end.

(** The objects a keyword argument or the result of a call may hold;
    [OSelf] is a reference to the object the method was called on. *)
Inductive object :=
| OSelf
| ONone
| OBool (b : bool)
| ONum (n : number)
| OStr (s : string)
| OPair (a b : number)
| OComplex (re im : float)
| OBytes (bs : list Byte.byte).

(** ** Exact arithmetic on binary64 values *)

(** The nearest integer to [n / d] for [0 < d], ties to the even one. *)
Definition div_half_even (n d : Z) : Z :=
  let q := n / d in
  let r := n mod d in
  match 2 * r ?= d with
  | Lt => q
  | Gt => q + 1
  | Eq => if Z.even q then q else q + 1
  end.

(** A finite float as an exact fraction [(n, d)] with [0 < d]. *)
Definition fraction_of (f : float) : option (Z * Z) :=
  match Prim2SF f with
  | S754_zero _ => Some (0, 1)
  | S754_finite s m e =>
      let n := if s then Z.neg m else Z.pos m in
      Some (if 0 <=? e then (n * 2 ^ e, 1) else (n, 2 ^ (- e)))
  | S754_infinity _ | S754_nan => None
  end.

(** The float nearest to the integer [z] (ties to even); infinite on overflow. *)
Definition float_of_Z (z : Z) : float :=
  SF2Prim (binary_normalize prec emax z 0 false).

(** The float nearest to [n / d] for integers [n] and [d <> 0]. *)
Definition float_of_quotient (n d : Z) : float :=
  let sf (z : Z) :=
    match z with
    | Z0 => S754_zero false
    | Zpos p => S754_finite false p 0
    | Zneg p => S754_finite true p 0
    end in
  SF2Prim (SFdiv prec emax (sf n) (sf d)).

(** [float(z)] for an integer: [OverflowError] beyond the binary64 range. *)
Definition int_to_float (z : Z) : result float :=
  let f := float_of_Z z in
  if is_infinity f then Raise (host_error OverflowError) else Ok f.

(** The implicit conversion of a mixed int/float operation. *)
Definition as_float (v : number) : result float :=
  match v with
  | PyInt z => int_to_float z
  | PyFloat f => Ok f
  end.

(** C [fmod]: exact, the result has the sign of [x]. *)
Definition fmod (x y : float) : float :=
  match Prim2SF x, Prim2SF y with
  | S754_nan, _ | _, S754_nan => nan
  | S754_infinity _, _ => nan
  | _, S754_zero _ => nan
  | _, S754_infinity _ => x
  | S754_zero _, _ => x
  | S754_finite sx mx ex, S754_finite sy my ey =>
      let e := Z.min ex ey in
      let r := (Z.pos mx * 2 ^ (ex - e)) mod (Z.pos my * 2 ^ (ey - e)) in
      SF2Prim (binary_normalize prec emax (if sx then - r else r) e sx)
  end.

(** C [floor] on a double. *)
Definition ffloor (x : float) : float :=
  match Prim2SF x with
  | S754_finite s m e =>
      if e <? 0
      then SF2Prim (binary_normalize prec emax
                      ((if s then Z.neg m else Z.pos m) / 2 ^ (- e)) 0 s)
      else x
  | _ => x
  end.

(** C [copysign(0.0, w)]. *)
Definition zero_with_sign_of (w : float) : float :=
  if get_sign w then PrimFloat.neg_zero else PrimFloat.zero.

(** CPython's [_float_div_mod]: floor quotient and remainder of two doubles,
    the divisor being nonzero. *)
Definition float_div_mod (vx wx : float) : float * float :=
  let m := fmod vx wx in
  let d := ((vx - m) / wx)%float in
  let '(m, d) :=
    if negb (m =? 0)%float
    then if xorb (wx <? 0)%float (m <? 0)%float
         then ((m + wx)%float, (d - 1)%float)
         else (m, d)
    else (zero_with_sign_of wx, d) in
  let q :=
    if negb (d =? 0)%float
    then let fl := ffloor d in
         if (0.5 <? d - fl)%float then (fl + 1)%float else fl
    else zero_with_sign_of (vx / wx)%float in
  (q, m).

(** ** Binary operators on numbers *)

(** Two integers stay integers; otherwise both operands become floats. *)
Definition arith (fi : Z -> Z -> result number)
                 (ff : float -> float -> result number)
                 (a b : number) : result number :=
  match a, b with
  | PyInt x, PyInt y => fi x y
  | _, _ => bind (as_float a) (fun x => bind (as_float b) (fun y => ff x y))
  end.

(** Integers only: any float operand is a [TypeError]. *)
Definition int_only (fi : Z -> Z -> result number) (a b : number)
  : result number :=
  match a, b with
  | PyInt x, PyInt y => fi x y
  | _, _ => Raise (host_error TypeError)
  end.

(** [a + b] *)
Definition add : number -> number -> result number :=
  arith (fun x y => Ok (PyInt (x + y)))
        (fun x y => Ok (PyFloat (x + y)%float)).

(** [a - b] *)
Definition sub : number -> number -> result number :=
  arith (fun x y => Ok (PyInt (x - y)))
        (fun x y => Ok (PyFloat (x - y)%float)).

(** [a * b] *)
Definition mul : number -> number -> result number :=
  arith (fun x y => Ok (PyInt (x * y)))
        (fun x y => Ok (PyFloat (x * y)%float)).

(** [x / y] on floats. *)
Definition float_truediv (x y : float) : result float :=
  if (y =? 0)%float then Raise (host_error ZeroDivisionError)
  else Ok (x / y)%float.

(** [a / b]: always a float. *)
Definition truediv : number -> number -> result number :=
  arith (fun x y =>
           if y =? 0 then Raise (host_error ZeroDivisionError)
           else let q := float_of_quotient x y in
                if is_infinity q then Raise (host_error OverflowError)
                else Ok (PyFloat q))
        (fun x y => bind (float_truediv x y) (fun q => Ok (PyFloat q))).

(** [a // b] *)
Definition floordiv : number -> number -> result number :=
  arith (fun x y =>
           if y =? 0 then Raise (host_error ZeroDivisionError)
           else Ok (PyInt (x / y)))
        (fun x y =>
           if (y =? 0)%float then Raise (host_error ZeroDivisionError)
           else Ok (PyFloat (fst (float_div_mod x y)))).

(** [a % b] *)
Definition mod_ : number -> number -> result number :=
  arith (fun x y =>
           if y =? 0 then Raise (host_error ZeroDivisionError)
           else Ok (PyInt (x mod y)))
        (fun x y =>
           if (y =? 0)%float then Raise (host_error ZeroDivisionError)
           else Ok (PyFloat (snd (float_div_mod x y)))).

(** [divmod(a, b)] *)
Definition divmod (a b : number) : result (number * number) :=
  bind (floordiv a b) (fun q => bind (mod_ a b) (fun r => Ok (q, r))).

(** [a << b] *)
Definition lshift : number -> number -> result number :=
  int_only (fun x y =>
              if y <? 0 then Raise (host_error ValueError)
              else Ok (PyInt (Z.shiftl x y))).

(** [a >> b] *)
Definition rshift : number -> number -> result number :=
  int_only (fun x y =>
              if y <? 0 then Raise (host_error ValueError)
              else Ok (PyInt (Z.shiftr x y))).

(** [a & b] *)
Definition and_ : number -> number -> result number :=
  int_only (fun x y => Ok (PyInt (Z.land x y))).

(** [a | b] *)
Definition or_ : number -> number -> result number :=
  int_only (fun x y => Ok (PyInt (Z.lor x y))).

(** [a ^ b] *)
Definition xor : number -> number -> result number :=
  int_only (fun x y => Ok (PyInt (Z.lxor x y))).

(** ** Unary operators *)

(** [-a] *)
Definition neg (a : number) : number :=
  match a with
  | PyInt x => PyInt (- x)
  | PyFloat x => PyFloat (- x)%float
  end.

(** [+a] *)
Definition pos (a : number) : number := a.

(** [abs(a)] *)
Definition abs (a : number) : number :=
  match a with
  | PyInt x => PyInt (Z.abs x)
  | PyFloat x => PyFloat (PrimFloat.abs x)
  end.

(** [~a] *)
Definition invert (a : number) : result number :=
  match a with
  | PyInt x => Ok (PyInt (Z.lnot x))
  | PyFloat _ => Raise (host_error TypeError)
  end.

(** ** Comparisons: exact, also between an integer and a float *)

Definition compare_Z_float (z : Z) (f : float) : option comparison :=
  match fraction_of f with
  | Some (n, d) => Some (z * d ?= n)
  | None =>
      if is_nan f then None
      else Some (if get_sign f then Gt else Lt)
  end.

Definition compare (a b : number) : option comparison :=
  match a, b with
  | PyInt x, PyInt y => Some (x ?= y)
  | PyInt x, PyFloat y => compare_Z_float x y
  | PyFloat x, PyInt y => option_map CompOpp (compare_Z_float y x)
  | PyFloat x, PyFloat y =>
      match PrimFloat.compare x y with
      | FEq => Some Eq
      | FLt => Some Lt
      | FGt => Some Gt
      | FNotComparable => None
      end
  end.

(** [a < b] *)
Definition lt (a b : number) : bool :=
  match compare a b with Some Lt => true | _ => false end.

(** [a <= b] *)
Definition le (a b : number) : bool :=
  match compare a b with Some Lt | Some Eq => true | _ => false end.

(** [a == b] *)
Definition eq (a b : number) : bool :=
  match compare a b with Some Eq => true | _ => false end.

(** [a != b] *)
Definition ne (a b : number) : bool := negb (eq a b).

(** [a >= b] *)
Definition ge (a b : number) : bool :=
  match compare a b with Some Gt | Some Eq => true | _ => false end.

(** [a > b] *)
Definition gt (a b : number) : bool :=
  match compare a b with Some Gt => true | _ => false end.

(** ** Conversions *)

(** [int(v)]: truncation towards zero. *)
Definition int (v : number) : result Z :=
  match v with
  | PyInt z => Ok z
  | PyFloat f =>
      match fraction_of f with
      | Some (n, d) => Ok (Z.quot n d)
      | None => Raise (host_error (if is_nan f then ValueError else OverflowError))
      end
  end.

(** [float(v)] *)
Definition float_ (v : number) : result float := as_float v.

(** [round(v)]: to the nearest integer, ties to even. *)
Definition round (v : number) : result Z :=
  match v with
  | PyInt z => Ok z
  | PyFloat f =>
      match fraction_of f with
      | Some (n, d) => Ok (div_half_even n d)
      | None => Raise (host_error (if is_nan f then ValueError else OverflowError))
      end
  end.

(** [round(x, k)] on a float: the float nearest to [x] rounded to [k] decimals. *)
Definition round_float_ndigits (x : float) (k : Z) : result float :=
  match fraction_of x with
  | None => Ok x
  | Some (n, d) =>
      let a := Z.abs n in
      let r :=
        if 0 <=? k
        then float_of_quotient (div_half_even (a * 10 ^ k) d) (10 ^ k)
        else float_of_Z (div_half_even a (d * 10 ^ (- k)) * 10 ^ (- k)) in
      if is_infinity r then Raise (host_error OverflowError)
      else Ok (if get_sign x then (- r)%float else r)
  end.

(** [round(v, n)] with the optional number of digits. *)
Definition round_ndigits (v : number) (n : option number) : result number :=
  match n with
  | None => bind (round v) (fun z => Ok (PyInt z))
  | Some (PyFloat _) => Raise (host_error TypeError)
  | Some (PyInt k) =>
      match v with
      | PyInt z =>
          Ok (PyInt (if 0 <=? k then z
                     else div_half_even z (10 ^ (- k)) * 10 ^ (- k)))
      | PyFloat x => bind (round_float_ndigits x k) (fun r => Ok (PyFloat r))
      end
  end.

(** [complex(v)] *)
Definition complex (v : number) : result (float * float) :=
  bind (as_float v) (fun f => Ok (f, PrimFloat.zero)).

(** What the machine has room for: whether a byte string of [size] bytes,
    more than none, can be allocated. *)
Class Memory := { allocates : Z -> bool }.

(** An integer as a C [ssize_t]: an [OverflowError] outside its range. *)
Definition index_sized (n : Z) : result Z :=
  if (n <? - 2 ^ 63) || (2 ^ 63 <=? n) then Raise (host_error OverflowError)
  else Ok n.

(** The allocation of a byte string of [size >= 0] bytes: the object header
    must fit beside them, and the allocator must have the room; the empty
    string is shared and always there. *)
Definition new_bytes {Mem : Memory} (size : Z) : result unit :=
  if 2 ^ 63 - 34 <? size then Raise (host_error OverflowError)
  else if (size =? 0) || allocates size then Ok tt
       else Raise (host_error MemoryError).

(** [bytes(v)]: that many zero bytes. *)
Definition bytes {Mem : Memory} (v : number) : result (list Byte.byte) :=
  match v with
  | PyInt n =>
      bind (index_sized n) (fun n =>
        if n <? 0 then Raise (host_error ValueError)
        else bind (new_bytes n) (fun _ =>
               Ok (repeat Byte.x00 (Z.to_nat n))))
  | PyFloat _ => Raise (host_error TypeError)
  end.

(** [bool(v)] *)
Definition bool_ (v : number) : bool :=
  match v with
  | PyInt z => negb (z =? 0)
  | PyFloat f => negb (f =? 0)%float
  end.

(** ** Strings *)

(** [str(z)] for an integer: its decimal digits. *)
Definition str_int (z : Z) : string := NilZero.string_of_int (Z.to_int z).

(** [s.lower()] on ASCII. *)
Definition lower_ascii (c : ascii) : ascii :=
  let n := nat_of_ascii c in
  if (65 <=? n)%nat && (n <=? 90)%nat then ascii_of_nat (n + 32) else c.

Fixpoint lower (s : string) : string :=
  match s with
  | EmptyString => EmptyString
  | String c s' => String (lower_ascii c) (lower s')
  end.

(** The decimal digits of [n >= 0], padded with zeros to [width] digits. *)
Fixpoint zeros (n : nat) : string :=
  match n with
  | O => ""
  | S n' => "0" ++ zeros n'
  end.

Definition zero_pad (width : nat) (s : string) : string :=
  zeros (width - String.length s) ++ s.

(** [f"{y:f}"]: six decimals, the last one rounded (ties to even). *)
Definition format_fixed (y : float) : string :=
  match fraction_of y with
  | None =>
      if is_nan y then "nan"
      else if get_sign y then "-inf" else "inf"
  | Some (n, d) =>
      let m := div_half_even (Z.abs n * 10 ^ 6) d in
      (if get_sign y then "-" else "")
        ++ str_int (m / 10 ^ 6) ++ "."
        ++ zero_pad 6 (str_int (m mod 10 ^ 6))
  end.

(** [f"{x:%}"]: [x * 100] with six decimals and a percent sign. *)
Definition format_percent (x : float) : string :=
  format_fixed (x * 100)%float ++ "%".

(** ** Hashing *)

(** [hash(z)] for an integer: reduction modulo the Mersenne prime [2^61 - 1],
    keeping the sign, and never [-1]. *)
Definition hash_int (z : Z) : Z :=
  let h := Z.sgn z * (Z.abs z mod (2 ^ 61 - 1)) in
  if h =? -1 then -2 else h.

Definition u64 (x : Z) : Z := x mod 2 ^ 64.

Definition rotl (x b : Z) : Z :=
  u64 (Z.lor (Z.shiftl x b) (Z.shiftr x (64 - b))).

Definition sip_state := (Z * Z * Z * Z)%type.

Definition sip_round (v : sip_state) : sip_state :=
  let '(v0, v1, v2, v3) := v in
  let v0 := u64 (v0 + v1) in
  let v1 := Z.lxor (rotl v1 13) v0 in
  let v0 := rotl v0 32 in
  let v2 := u64 (v2 + v3) in
  let v3 := Z.lxor (rotl v3 16) v2 in
  let v0 := u64 (v0 + v3) in
  let v3 := Z.lxor (rotl v3 21) v0 in
  let v2 := u64 (v2 + v1) in
  let v1 := Z.lxor (rotl v1 17) v2 in
  let v2 := rotl v2 32 in
  (v0, v1, v2, v3).

Definition sip_absorb (c : nat) (v : sip_state) (m : Z) : sip_state :=
  let '(v0, v1, v2, v3) := v in
  let '(v0, v1, v2, v3) := Nat.iter c sip_round (v0, v1, v2, Z.lxor v3 m) in
  (Z.lxor v0 m, v1, v2, v3).

(** A little-endian word from at most eight bytes. *)
Fixpoint le_word (bs : list Z) : Z :=
  match bs with
  | [] => 0
  | b :: bs' => b + 256 * le_word bs'
  end.

(** The message in blocks of eight bytes; the last block is partial. *)
Fixpoint sip_blocks (fuel : nat) (v : sip_state) (c : nat) (bs : list Z)
  : sip_state * list Z :=
  match fuel with
  | O => (v, bs)
  | S fuel' =>
      if (8 <=? List.length bs)%nat
      then sip_blocks fuel' (sip_absorb c v (le_word (firstn 8 bs))) c (skipn 8 bs)
      else (v, bs)
  end.

(** SipHash with [c] compression and [d] finalization rounds, keyed by [(k0, k1)]. *)
Definition siphash (c d : nat) (k0 k1 : Z) (bs : list Z) : Z :=
  let v := (Z.lxor k0 0x736f6d6570736575, Z.lxor k1 0x646f72616e646f6d,
            Z.lxor k0 0x6c7967656e657261, Z.lxor k1 0x7465646279746573) in
  let '(v, tail) := sip_blocks (List.length bs) v c bs in
  let b := u64 (Z.shiftl (Z.of_nat (List.length bs)) 56) + le_word tail in
  let '(v0, v1, v2, v3) := sip_absorb c v b in
  let '(v0, v1, v2, v3) := Nat.iter d sip_round (v0, v1, Z.lxor v2 0xff, v3) in
  Z.lxor (Z.lxor v0 v1) (Z.lxor v2 v3).

Fixpoint bytes_of_string (s : string) : list Z :=
  match s with
  | EmptyString => []
  | String c s' => Z.of_nat (nat_of_ascii c) :: bytes_of_string s'
  end.

(** ** Integers as byte strings *)

(** [z.bit_length()]: the bits of the absolute value. *)
Definition bit_length (z : Z) : Z :=
  if z =? 0 then 0 else Z.log2 (Z.abs z) + 1.

Definition byte_of_Z (z : Z) : Byte.byte :=
  match Byte.of_N (Z.to_N z) with
  | Some b => b
  | None => Byte.x00
  end.

Definition Z_of_byte (b : Byte.byte) : Z := Z.of_N (Byte.to_N b).

(** The [n] low base-256 digits of [z], the lowest first; a negative [z]
    in two's complement. *)
Fixpoint le_digits (n : nat) (z : Z) : list Byte.byte :=
  match n with
  | O => []
  | S n' => byte_of_Z (z mod 256) :: le_digits n' (z / 256)
  end.

(** The number whose base-256 digits, the lowest first, are [bs]. *)
Fixpoint le_value (bs : list Byte.byte) : Z :=
  match bs with
  | [] => 0
  | b :: bs' => Z_of_byte b + 256 * le_value bs'
  end.

(** Between the order ["little"] or ["big"] and lowest-digit-first; any
    other word is a [ValueError]. *)
Definition in_byteorder (byteorder : string) (bs : list Byte.byte)
  : result (list Byte.byte) :=
  if String.eqb byteorder "little" then Ok bs
  else if String.eqb byteorder "big" then Ok (rev bs)
  else Raise (host_error ValueError).

(** Whether [z] can be written on [length] bytes. CPython 3.11 also writes
    a signed -1 on no byte at all. *)
Definition fits (z length : Z) (signed : bool) : bool :=
  if signed
  then if length =? 0 then (z =? 0) || (z =? -1)
       else (- 256 ^ length <=? 2 * z) && (2 * z <? 256 ^ length)
  else (0 <=? z) && (z <? 256 ^ length).

(** [z.to_bytes(length, byteorder, signed=signed)]: the length is read as
    a C [ssize_t], the byte order is checked, then the sign of the length; the
    byte string is allocated, and only then is [z] written, if it fits. *)
Definition to_bytes {Mem : Memory} (z length : Z) (byteorder : string)
                    (signed : bool) : result (list Byte.byte) :=
  bind (index_sized length) (fun length =>
    bind (in_byteorder byteorder []) (fun _ =>
      if length <? 0 then Raise (host_error ValueError)
      else bind (new_bytes length) (fun _ =>
             if fits z length signed
             then in_byteorder byteorder (le_digits (Z.to_nat length) z)
             else Raise (host_error OverflowError)))).

(** [int.from_bytes(bs, byteorder, signed=signed)] *)
Definition from_bytes (bs : list Byte.byte) (byteorder : string) (signed : bool)
  : result Z :=
  bind (in_byteorder byteorder bs) (fun le =>
    let v := le_value le in
    let top := 256 ^ Z.of_nat (List.length bs) in
    Ok (if signed && (top <=? 2 * v) then v - top else v)).

(** ** The built-in [range] *)

(** The integers from [start], in steps of [step <> 0], short of [stop]. *)
Definition range_list (start stop step : Z) : list Z :=
  let len := if 0 <? step
             then (stop - start + step - 1) / step
             else (start - stop - step - 1) / (- step) in
  map (fun k => start + Z.of_nat k * step) (seq 0 (Z.to_nat len)).

(** [range] applied to the unpacked argument tuple [args]. *)
Definition range (args : list Z) : result (list Z) :=
  match args with
  | [stop] => Ok (range_list 0 stop 1)
  | [start; stop] => Ok (range_list start stop 1)
  | [start; stop; step] =>
      if step =? 0 then Raise (host_error ValueError)
      else Ok (range_list start stop step)
  | _ => Raise (host_error TypeError)
  end.

(** What the interpreter fixes at start-up and the C library provides. *)
Class Host := {
  (** [pow(base, exp, mod)] *)
  host_pow : number -> number -> option number -> result number;
  (** [repr(f)] for a float *)
  host_float_repr : float -> string;
  (** the rounds of the string hash: [(1, 3)] from CPython 3.11, [(2, 4)] before *)
  host_hash_rounds : nat * nat;
  (** the key of the string hash, drawn at start-up ([PYTHONHASHSEED]) *)
  host_hash_secret : Z * Z
}.

(** [hash(s)] for a string of one-byte characters. *)
Definition hash_str {H : Host} (s : string) : Z :=
  match s with
  | EmptyString => 0
  | _ =>
      let h := siphash (fst host_hash_rounds) (snd host_hash_rounds)
                       (fst host_hash_secret) (snd host_hash_secret)
                       (bytes_of_string s) in
      let h := if 2 ^ 63 <=? h then h - 2 ^ 64 else h in
      if h =? -1 then -2 else h
  end.

(** [str(v)] *)
Definition str {H : Host} (v : number) : string :=
  match v with
  | PyInt z => str_int z
  | PyFloat f => host_float_repr f
  end.

(** [pow(base, exp, mod)] *)
Definition pow {H : Host} (base exp : number) (modulo : option number)
  : result number :=
  host_pow base exp modulo.

End Py.

(* ================================================================== *)
(** * The observable base class *)
(* ================================================================== *)

Module Observable.

(** The keyword arguments of a call, in the order they were given. *)
Definition kwargs := list (string * Py.object).

Fixpoint get (key : string) (kw : kwargs) : option Py.object :=
  match kw with
  | [] => None
  | (k, v) :: kw' => if String.eqb k key then Some v else get key kw'
  end.

(** How a wrapper reacts when a mutation leaves a value that is no integer:
    [incorrect_type_handler], a string keyword, a callable, or anything else. *)
Inductive policy :=
| PolicyStr (s : string)
| PolicyCallable (f : Py.number -> Py.result Py.number)
| PolicyOther.

(** The attributes of an [ObservableInteger] instance, those its base
    classes set included. *)
Record instance := {
  (** [self._val] *)
  _val : Py.number;
  (** [self._incorrect_type_policy] *)
  _incorrect_type_policy : policy;
  (** [self.final_value] *)
  final_value : option Py.number;
  (** [type(self).__name__] *)
  __name__ : string;
  (** the calls of [update_observers] so far, oldest first *)
  notified : list kwargs
}.

(** A method: from the state of [self] to the state it leaves and what the
    call produced. An exception keeps the state reached when it was raised. *)
Definition M (A : Type) : Type := instance -> instance * Py.result A.

Definition ret {A} (a : A) : M A := fun self => (self, Py.Ok a).

Definition raise {A} (e : Py.exn) : M A := fun self => (self, Py.Raise e).

Definition bind {A B} (m : M A) (k : A -> M B) : M B :=
  fun self =>
    match m self with
    | (self', Py.Ok a) => k a self'
    | (self', Py.Raise e) => (self', Py.Raise e)
    end.

Definition lift {A} (r : Py.result A) : M A := fun self => (self, r).

(** [self._val] *)
Definition get_val : M Py.number := fun self => (self, Py.Ok (_val self)).

(** The instance with one attribute replaced. *)
Definition with_val (v : Py.number) (self : instance) : instance :=
  {| _val := v;
     _incorrect_type_policy := _incorrect_type_policy self;
     final_value := final_value self;
     __name__ := __name__ self;
     notified := notified self |}.

Definition with_final_value (v : option Py.number) (self : instance)
  : instance :=
  {| _val := _val self;
     _incorrect_type_policy := _incorrect_type_policy self;
     final_value := v;
     __name__ := __name__ self;
     notified := notified self |}.

Definition with_incorrect_type_policy (p : policy) (self : instance)
  : instance :=
  {| _val := _val self;
     _incorrect_type_policy := p;
     final_value := final_value self;
     __name__ := __name__ self;
     notified := notified self |}.

Definition with_notified (events : list kwargs) (self : instance) : instance :=
  {| _val := _val self;
     _incorrect_type_policy := _incorrect_type_policy self;
     final_value := final_value self;
     __name__ := __name__ self;
     notified := events |}.

(** [self._val = v] *)
Definition set_val (v : Py.number) : M unit :=
  fun self => (with_val v self, Py.Ok tt).

(** [self._incorrect_type_policy = p] *)
Definition set_incorrect_type_policy (p : policy) : M unit :=
  fun self => (with_incorrect_type_policy p self, Py.Ok tt).

(** [self.final_value = v] *)
Definition set_final_value (v : option Py.number) : M unit :=
  fun self => (with_final_value v self, Py.Ok tt).

(** Modelled from the spec: the notification hub (class [Observable], with
    its [update_observers]) is not among the sources. It is invoked with the
    event's fields as keyword arguments and hands them, synchronously, to every
    registered observer; what it was invoked with is recorded in [notified]. *)
Definition update_observers (event : kwargs) : M unit :=
  fun self => (with_notified (notified self ++ [event]) self, Py.Ok tt).

End Observable.

Declare Scope method_scope.
Delimit Scope method_scope with method.
Notation "x <- m ;; k" := (Observable.bind m (fun x => k))
  (at level 61, m at next level, right associativity) : method_scope.
Notation "m ;; k" := (Observable.bind m (fun _ => k))
  (at level 61, right associativity) : method_scope.

(* ================================================================== *)
(** * observables/numeric_base.py *)
(* ================================================================== *)

Module ObservableNumeric.
Import Observable.
#[local] Open Scope method_scope.

(** A freshly allocated object of class [cls], no observer notified yet.
    Its other attributes do not exist before the constructors below assign
    them, which they do before anything reads them. *)
Definition allocate (cls : string) : instance :=
  {| _val := Py.PyInt 0;
     _incorrect_type_policy := PolicyOther;
     final_value := None;
     __name__ := cls;
     notified := [] |}.

(** [ObservableNumeric.__init__(self, val)] *)
Definition __init__ (val : Py.number) : M unit :=
  set_val val.

Section Methods.
Context {H : Py.Host}.

(** [self._ireturn], as the class of [self] defines it. *)
Variable _ireturn : string -> Py.number -> kwargs -> M Py.object.

(** The property [val]. *)
Definition val : M Py.number := get_val.

(** *** Numerical comparisons *)

Definition __lt__ (other : Py.number) : M bool :=
  v <- get_val ;; ret (Py.lt v other).

Definition __le__ (other : Py.number) : M bool :=
  v <- get_val ;; ret (Py.le v other).

Definition __eq__ (other : Py.number) : M bool :=
  v <- get_val ;; ret (Py.eq v other).

Definition __ne__ (other : Py.number) : M bool :=
  v <- get_val ;; ret (Py.ne v other).

Definition __ge__ (other : Py.number) : M bool :=
  v <- get_val ;; ret (Py.ge v other).

Definition __gt__ (other : Py.number) : M bool :=
  v <- get_val ;; ret (Py.gt v other).

(** *** Unary *)

Definition __neg__ : M Py.number :=
  v <- get_val ;; ret (Py.neg v).

Definition __pos__ : M Py.number :=
  v <- get_val ;; ret (Py.pos v).

Definition __abs__ : M Py.number :=
  v <- get_val ;; ret (Py.abs v).

(** *** Arithmetics *)

Definition __add__ (other : Py.number) : M Py.number :=
  v <- get_val ;; lift (Py.add v other).

Definition __sub__ (other : Py.number) : M Py.number :=
  v <- get_val ;; lift (Py.sub v other).

Definition __mul__ (other : Py.number) : M Py.number :=
  v <- get_val ;; lift (Py.mul v other).

Definition __truediv__ (other : Py.number) : M Py.number :=
  v <- get_val ;; lift (Py.truediv v other).

(** *** Boolean and representation *)

Definition __bool__ : M bool :=
  v <- get_val ;; ret (Py.bool_ v).

Definition __str__ : M string :=
  v <- get_val ;; ret (Py.str v).

Definition __repr__ : M string := __str__.

Definition __hash__ : M Z :=
  r <- __repr__ ;; ret (Py.hash_str r).

(** *** Augmented arithmetics *)

Definition __iadd__ (other : Py.number) : M Py.object :=
  previous <- get_val ;;
  v <- lift (Py.add previous other) ;;
  set_val v ;;
  _ireturn "__iadd__" other [("previous", Py.ONum previous)].

Definition __isub__ (other : Py.number) : M Py.object :=
  previous <- get_val ;;
  v <- lift (Py.sub previous other) ;;
  set_val v ;;
  _ireturn "__isub__" other [("previous", Py.ONum previous)].

Definition __imul__ (other : Py.number) : M Py.object :=
  previous <- get_val ;;
  v <- lift (Py.mul previous other) ;;
  set_val v ;;
  _ireturn "__imul__" other [("previous", Py.ONum previous)].

Definition __itruediv__ (other : Py.number) : M Py.object :=
  previous <- get_val ;;
  v <- lift (Py.truediv previous other) ;;
  set_val v ;;
  _ireturn "__itruediv__" other [("previous", Py.ONum previous)].

Definition __ifloordiv__ (other : Py.number) : M Py.object :=
  previous <- get_val ;;
  v <- lift (Py.floordiv previous other) ;;
  set_val v ;;
  _ireturn "__ifloordiv__" other [("previous", Py.ONum previous)].

(** *** Direct setter *)

(** [set(self, val)] *)
Definition set (val : Py.number) : M Py.object :=
  previous <- get_val ;;
  set_val val ;;
  _ireturn "set" val [("previous", Py.ONum previous)].

(** A call of [self.set] with positional arguments [args] and keyword
    arguments [kw]: they are bound to the one parameter [val]; a missing,
    repeated or unknown argument is a [TypeError] (and so is, here, a [val]
    that is no number: the modelled wrapper holds numbers only). *)
Definition call_set (args : list Py.number) (kw : kwargs) : M Py.object :=
  match args, kw with
  | [v], [] => set v
  | [], [(k, Py.ONum v)] =>
      if String.eqb k "val" then set v else raise (Py.host_error Py.TypeError)
  | _, _ => raise (Py.host_error Py.TypeError)
  end.

End Methods.

(** [ObservableNumeric._ireturn]: left to the subclasses. *)
Definition _ireturn (method : string) (other : Py.number) (kw : kwargs)
  : M Py.object :=
  raise (Py.mk_exn Py.NotImplementedError None).

End ObservableNumeric.

(* ================================================================== *)
(** * observables/integer.py *)
(* ================================================================== *)

Module ObservableInteger.
Import Observable.
#[local] Open Scope method_scope.

Section Methods.
Context {H : Py.Host} {Mem : Py.Memory}.

(** *** Observation method *)

(** The message of the [ValueError] of [_ireturn]. *)
Definition not_an_integer (name : string) (v : Py.number) : Py.exn :=
  Py.mk_exn Py.ValueError
    (Some ("Value of " ++ name ++ " is not an integer. Instead it is "
             ++ Py.type_repr v ++ "."))%string.

(** The keyword arguments of
    [update_observers(method=method, other=other, new_val=self._val, **kwargs)]. *)
Definition event (method : string) (other new_val : Py.number) (kw : kwargs)
  : kwargs :=
  ([("method", Py.OStr method); ("other", Py.ONum other);
    ("new_val", Py.ONum new_val)] ++ kw)%list.

(** [_ireturn(self, *, method, other, **kwargs)] *)
Definition _ireturn (method : string) (other : Py.number) (kw : kwargs)
  : M Py.object :=
  fun self =>
    ((* Check if incorrect type *)
     (if negb (Py.isinstance_int (_val self))
      then
        let name := __name__ self in
        match _incorrect_type_policy self with
        (* String keyword policies *)
        | PolicyStr s =>
            if String.eqb (Py.lower s) "round"
            then v <- get_val ;; z <- lift (Py.round v) ;; set_val (Py.PyInt z)
            else if String.eqb (Py.lower s) "int"
            then v <- get_val ;; z <- lift (Py.int v) ;; set_val (Py.PyInt z)
            else v <- get_val ;; raise (not_an_integer name v)
        (* Check for callable policy *)
        | PolicyCallable f =>
            v <- get_val ;; v' <- lift (f v) ;; set_val v'
        (* Raise error *)
        | PolicyOther =>
            v <- get_val ;; raise (not_an_integer name v)
        end
      else ret tt) ;;
     (* Notify observers *)
     new_val <- get_val ;;
     update_observers (event method other new_val kw) ;;
     ret Py.OSelf) self.

(** The state [_ireturn] leaves when it returns, the value held being [v]
    by then: one more notification, with [v] as the new value. *)
Definition notified_of (method : string) (other : Py.number) (kw : kwargs)
                       (v : Py.number) (self : instance) : instance :=
  with_notified (notified self ++ [event method other v kw])%list
                (with_val v self).

(** [ObservableInteger.__init__(self, val, final_value,
    incorrect_type_handler)] *)
Definition __init__ (val : Py.number) (final_value : option Py.number)
                    (incorrect_type_handler : policy) : M unit :=
  z <- lift (Py.int val) ;;
  ObservableNumeric.__init__ (Py.PyInt z) ;;
  set_incorrect_type_policy incorrect_type_handler ;;
  set_final_value final_value.

(** The call [ObservableInteger(val, final_value, incorrect_type_handler)]:
    an argument left out, [None] here, takes its default, [val=0] and
    [incorrect_type_handler="round"]. *)
Definition new (val : option Py.number) (final_value : option Py.number)
               (incorrect_type_handler : option policy)
  : Py.result instance :=
  match __init__ (match val with Some v => v | None => Py.PyInt 0 end)
                 final_value
                 (match incorrect_type_handler with
                  | Some p => p
                  | None => PolicyStr "round"
                  end)
                 (ObservableNumeric.allocate "ObservableInteger") with
  | (self, Py.Ok _) => Py.Ok self
  | (_, Py.Raise e) => Py.Raise e
  end.

(** *** Unary *)

Definition __index__ : M Py.number := get_val.

Definition __invert__ : M Py.number :=
  v <- get_val ;; lift (Py.invert v).

(** *** Arithmetics *)

Definition __pow__ (power : Py.number) (modulo : option Py.number)
  : M Py.number :=
  v <- get_val ;; lift (Py.pow v power modulo).

Definition __rpow__ (power : Py.number) (modulo : option Py.number)
  : M Py.number :=
  v <- get_val ;; lift (Py.pow power v modulo).

(** *** Arithmetics: divisions and modulo *)

Definition __floordiv__ (other : Py.number) : M Py.number :=
  v <- get_val ;; lift (Py.floordiv v other).

Definition __rfloordiv__ (other : Py.number) : M Py.number :=
  v <- get_val ;; lift (Py.floordiv other v).

Definition __mod__ (other : Py.number) : M Py.number :=
  v <- get_val ;; lift (Py.mod_ v other).

Definition __rmod__ (other : Py.number) : M Py.number :=
  v <- get_val ;; lift (Py.mod_ other v).

Definition __divmod__ (other : Py.number) : M (Py.number * Py.number) :=
  v <- get_val ;; lift (Py.divmod v other).

Definition __rdivmod__ (other : Py.number) : M (Py.number * Py.number) :=
  v <- get_val ;; lift (Py.divmod other v).

(** *** Arithmetics: binary *)

Definition __lshift__ (other : Py.number) : M Py.number :=
  v <- get_val ;; lift (Py.lshift v other).

Definition __rlshift__ (other : Py.number) : M Py.number :=
  v <- get_val ;; lift (Py.lshift other v).

Definition __rshift__ (other : Py.number) : M Py.number :=
  v <- get_val ;; lift (Py.rshift v other).

Definition __rrshift__ (other : Py.number) : M Py.number :=
  v <- get_val ;; lift (Py.rshift other v).

(** *** Boolean *)

Definition __and__ (other : Py.number) : M Py.number :=
  v <- get_val ;; lift (Py.and_ v other).

Definition __rand__ (other : Py.number) : M Py.number :=
  v <- get_val ;; lift (Py.and_ other v).

Definition __or__ (other : Py.number) : M Py.number :=
  v <- get_val ;; lift (Py.or_ v other).

Definition __ror__ (other : Py.number) : M Py.number :=
  v <- get_val ;; lift (Py.or_ other v).

Definition __xor__ (other : Py.number) : M Py.number :=
  v <- get_val ;; lift (Py.xor v other).

Definition __rxor__ (other : Py.number) : M Py.number :=
  v <- get_val ;; lift (Py.xor other v).

(** *** Representation and conversions *)

Definition __bytes__ : M (list Byte.byte) :=
  v <- get_val ;; lift (Py.bytes v).

Definition __complex__ : M (float * float) :=
  v <- get_val ;; lift (Py.complex v).

Definition __int__ : M Z :=
  v <- get_val ;; lift (Py.int v).

Definition __float__ : M float :=
  v <- get_val ;; lift (Py.float_ v).

Definition __round__ (n : option Py.number) : M Py.number :=
  v <- get_val ;; lift (Py.round_ndigits v n).

(** *** Augmented arithmetics *)

Definition __ilshift__ (other : Py.number) : M Py.object :=
  previous <- get_val ;;
  v <- lift (Py.lshift previous other) ;;
  set_val v ;;
  _ireturn "__ilshift__" other [("previous", Py.ONum previous)].

Definition __irshift__ (other : Py.number) : M Py.object :=
  previous <- get_val ;;
  v <- lift (Py.rshift previous other) ;;
  set_val v ;;
  _ireturn "__irshift__" other [("previous", Py.ONum previous)].

Definition __iand__ (other : Py.number) : M Py.object :=
  previous <- get_val ;;
  v <- lift (Py.and_ previous other) ;;
  set_val v ;;
  _ireturn "__iand__" other [("previous", Py.ONum previous)].

Definition __ixor__ (other : Py.number) : M Py.object :=
  previous <- get_val ;;
  v <- lift (Py.xor previous other) ;;
  set_val v ;;
  _ireturn "__ixor__" other [("previous", Py.ONum previous)].

Definition __ior__ (other : Py.number) : M Py.object :=
  previous <- get_val ;;
  v <- lift (Py.or_ previous other) ;;
  set_val v ;;
  _ireturn "__ior__" other [("previous", Py.ONum previous)].

Definition __imod__ (other : Py.number) : M Py.object :=
  previous <- get_val ;;
  v <- lift (Py.mod_ previous other) ;;
  set_val v ;;
  _ireturn "__imod__" other [("previous", Py.ONum previous)].

Definition __ipow__ (other : Py.number) (modulo : option Py.number)
  : M Py.object :=
  previous <- get_val ;;
  v <- lift (Py.pow previous other modulo) ;;
  set_val v ;;
  _ireturn "__ipow__" other
    [("modulo", match modulo with Some m => Py.ONum m | None => Py.ONone end);
     ("previous", Py.ONum previous)].

(** *** The methods inherited from [ObservableNumeric], with [_ireturn] bound *)

Definition __iadd__ := ObservableNumeric.__iadd__ _ireturn.
Definition __isub__ := ObservableNumeric.__isub__ _ireturn.
Definition __imul__ := ObservableNumeric.__imul__ _ireturn.
Definition __itruediv__ := ObservableNumeric.__itruediv__ _ireturn.
Definition __ifloordiv__ := ObservableNumeric.__ifloordiv__ _ireturn.
Definition set := ObservableNumeric.set _ireturn.
Definition call_set := ObservableNumeric.call_set _ireturn.

(** *** Class specifics *)

Definition imag : M Py.number := ret (Py.PyInt 0).

Definition real : M Py.number := get_val.

Definition conjugate : M (float * float) :=
  v <- get_val ;; lift (Py.complex v).

(** [self._val.bit_length()]: a float has no such method. *)
Definition bit_length : M Z :=
  v <- get_val ;;
  match v with
  | Py.PyInt z => ret (Py.bit_length z)
  | Py.PyFloat _ => raise (Py.host_error Py.AttributeError)
  end.

(** [self._val.from_bytes(bytes=bytes, byteorder=byteorder, signed=signed)] *)
Definition from_bytes (bytes : list Byte.byte) (byteorder : string)
                      (signed : bool) : M Z :=
  v <- get_val ;;
  match v with
  | Py.PyInt _ => lift (Py.from_bytes bytes byteorder signed)
  | Py.PyFloat _ => raise (Py.host_error Py.AttributeError)
  end.

(** [self._val.to_bytes(length=length, byteorder=byteorder, signed=signed)] *)
Definition to_bytes (length : Z) (byteorder : string) (signed : bool)
  : M (list Byte.byte) :=
  v <- get_val ;;
  match v with
  | Py.PyInt z => lift (Py.to_bytes z length byteorder signed)
  | Py.PyFloat _ => raise (Py.host_error Py.AttributeError)
  end.

(** *** Added specials *)

(** A generator object made by [range]: not started yet, suspended at its
    [yield] with the values still to come, or finished. *)
Inductive generator :=
| Created (args : list Z)
| Suspended (pending : list Z)
| Finished.

(** What resuming a generator produces. *)
Inductive produced :=
| Yield (o : Py.object)
| StopIteration
| Failed (e : Py.exn).

(** [range(self, *args)]: calling it only makes the generator. *)
Definition range (args : list Z) : generator := Created args.

(** The [for] loop of [range], from the values still to come. *)
Definition range_loop (pending : list Z) (self : instance)
  : instance * generator * produced :=
  match pending with
  | [] => (self, Finished, StopIteration)
  | i :: rest =>
      match call_set [Py.PyInt i] [("method", Py.OStr "range")] self with
      | (self', Py.Ok o) => (self', Suspended rest, Yield o)
      | (self', Py.Raise e) => (self', Finished, Failed e)
      end
  end.

(** [next(g)] on a generator of [range]. *)
Definition next (g : generator) (self : instance)
  : instance * generator * produced :=
  match g with
  | Created args =>
      match ((match args with
              | [a] => set_final_value (Some (Py.PyInt (a - 1)))
              | _ :: b :: _ => set_final_value (Some (Py.PyInt (b - 1)))
              | [] => raise (Py.host_error Py.IndexError)
              end) ;;
             lift (Py.range args)) self with
      | (self', Py.Ok pending) => range_loop pending self'
      | (self', Py.Raise e) => (self', Finished, Failed e)
      end
  | Suspended pending => range_loop pending self
  | Finished => (self, Finished, StopIteration)
  end.

(** Iterating a generator to its end, at most [fuel] steps: the objects it
    yielded, each with the value the wrapper held at that [yield], and how the
    iteration ended ([None] when [fuel] steps were not enough). *)
Fixpoint iterate (fuel : nat) (g : generator) (self : instance)
  : instance * list (Py.object * Py.number) * option produced :=
  match fuel with
  | O => (self, [], None)
  | S fuel' =>
      match next g self with
      | (self', g', Yield o) =>
          let '(self'', ys, e) := iterate fuel' g' self' in
          (self'', (o, _val self') :: ys, e)
      | (self', _, p) => (self', [], Some p)
      end
  end.

(** *** The methods by name *)

(** A call of a mutating method, with its arguments. *)
Inductive mutation :=
| IAdd (other : Py.number)
| ISub (other : Py.number)
| IMul (other : Py.number)
| ITrueDiv (other : Py.number)
| IFloorDiv (other : Py.number)
| IMod (other : Py.number)
| IPow (other : Py.number) (modulo : option Py.number)
| ILShift (other : Py.number)
| IRShift (other : Py.number)
| IAnd (other : Py.number)
| IXor (other : Py.number)
| IOr (other : Py.number)
| ISet (val : Py.number).

Definition call (m : mutation) : M Py.object :=
  match m with
  | IAdd other => __iadd__ other
  | ISub other => __isub__ other
  | IMul other => __imul__ other
  | ITrueDiv other => __itruediv__ other
  | IFloorDiv other => __ifloordiv__ other
  | IMod other => __imod__ other
  | IPow other modulo => __ipow__ other modulo
  | ILShift other => __ilshift__ other
  | IRShift other => __irshift__ other
  | IAnd other => __iand__ other
  | IXor other => __ixor__ other
  | IOr other => __ior__ other
  | ISet val => set val
  end.

(** The binary operator behind each mutating method, applied to the value
    held and the operand: the value the method stores before [_ireturn]. *)
Definition operator (m : mutation) (held : Py.number) : Py.result Py.number :=
  match m with
  | IAdd other => Py.add held other
  | ISub other => Py.sub held other
  | IMul other => Py.mul held other
  | ITrueDiv other => Py.truediv held other
  | IFloorDiv other => Py.floordiv held other
  | IMod other => Py.mod_ held other
  | IPow other modulo => Py.pow held other modulo
  | ILShift other => Py.lshift held other
  | IRShift other => Py.rshift held other
  | IAnd other => Py.and_ held other
  | IXor other => Py.xor held other
  | IOr other => Py.or_ held other
  | ISet val => Py.Ok val
  end.

(** The [method], [other] and further keyword arguments each mutating
    method passes to [_ireturn]. *)
Definition method_name (m : mutation) : string :=
  match m with
  | IAdd _ => "__iadd__"
  | ISub _ => "__isub__"
  | IMul _ => "__imul__"
  | ITrueDiv _ => "__itruediv__"
  | IFloorDiv _ => "__ifloordiv__"
  | IMod _ => "__imod__"
  | IPow _ _ => "__ipow__"
  | ILShift _ => "__ilshift__"
  | IRShift _ => "__irshift__"
  | IAnd _ => "__iand__"
  | IXor _ => "__ixor__"
  | IOr _ => "__ior__"
  | ISet _ => "set"
  end.

Definition operand (m : mutation) : Py.number :=
  match m with
  | IAdd other | ISub other | IMul other | ITrueDiv other | IFloorDiv other
  | IMod other | IPow other _ | ILShift other | IRShift other | IAnd other
  | IXor other | IOr other | ISet other => other
  end.

Definition further (m : mutation) (previous : Py.number) : kwargs :=
  match m with
  | IPow _ modulo =>
      [("modulo", match modulo with Some x => Py.ONum x | None => Py.ONone end);
       ("previous", Py.ONum previous)]
  | _ => [("previous", Py.ONum previous)]
  end.

(** A call of a read-only method, with its arguments. *)
Inductive query :=
| Lt (other : Py.number) | Le (other : Py.number) | Eq (other : Py.number)
| Ne (other : Py.number) | Ge (other : Py.number) | Gt (other : Py.number)
| Neg | Pos | Abs | Invert | Index | Bool | Str | Repr | Hash
| Add (other : Py.number) | Sub (other : Py.number) | Mul (other : Py.number)
| TrueDiv (other : Py.number)
| Pow (power : Py.number) (modulo : option Py.number)
| RPow (power : Py.number) (modulo : option Py.number)
| FloorDiv (other : Py.number) | RFloorDiv (other : Py.number)
| Mod (other : Py.number) | RMod (other : Py.number)
| DivMod (other : Py.number) | RDivMod (other : Py.number)
| LShift (other : Py.number) | RLShift (other : Py.number)
| RShift (other : Py.number) | RRShift (other : Py.number)
| And (other : Py.number) | RAnd (other : Py.number)
| Or (other : Py.number) | ROr (other : Py.number)
| Xor (other : Py.number) | RXor (other : Py.number)
| Bytes | Complex | Int | Float | Round (n : option Py.number)
| Imag | Real | Conjugate.

(** The result of a method as an object. *)
Definition returning {A} (inj : A -> Py.object) (m : M A) : M Py.object :=
  x <- m ;; ret (inj x).

Definition of_Z (z : Z) : Py.object := Py.ONum (Py.PyInt z).
Definition of_float (f : float) : Py.object := Py.ONum (Py.PyFloat f).
Definition of_pair (p : Py.number * Py.number) : Py.object :=
  Py.OPair (fst p) (snd p).
Definition of_complex (c : float * float) : Py.object :=
  Py.OComplex (fst c) (snd c).

Definition ask (q : query) : M Py.object :=
  match q with
  | Lt other => returning Py.OBool (ObservableNumeric.__lt__ other)
  | Le other => returning Py.OBool (ObservableNumeric.__le__ other)
  | Eq other => returning Py.OBool (ObservableNumeric.__eq__ other)
  | Ne other => returning Py.OBool (ObservableNumeric.__ne__ other)
  | Ge other => returning Py.OBool (ObservableNumeric.__ge__ other)
  | Gt other => returning Py.OBool (ObservableNumeric.__gt__ other)
  | Neg => returning Py.ONum ObservableNumeric.__neg__
  | Pos => returning Py.ONum ObservableNumeric.__pos__
  | Abs => returning Py.ONum ObservableNumeric.__abs__
  | Invert => returning Py.ONum __invert__
  | Index => returning Py.ONum __index__
  | Bool => returning Py.OBool ObservableNumeric.__bool__
  | Str => returning Py.OStr ObservableNumeric.__str__
  | Repr => returning Py.OStr ObservableNumeric.__repr__
  | Hash => returning of_Z ObservableNumeric.__hash__
  | Add other => returning Py.ONum (ObservableNumeric.__add__ other)
  | Sub other => returning Py.ONum (ObservableNumeric.__sub__ other)
  | Mul other => returning Py.ONum (ObservableNumeric.__mul__ other)
  | TrueDiv other => returning Py.ONum (ObservableNumeric.__truediv__ other)
  | Pow power modulo => returning Py.ONum (__pow__ power modulo)
  | RPow power modulo => returning Py.ONum (__rpow__ power modulo)
  | FloorDiv other => returning Py.ONum (__floordiv__ other)
  | RFloorDiv other => returning Py.ONum (__rfloordiv__ other)
  | Mod other => returning Py.ONum (__mod__ other)
  | RMod other => returning Py.ONum (__rmod__ other)
  | DivMod other => returning of_pair (__divmod__ other)
  | RDivMod other => returning of_pair (__rdivmod__ other)
  | LShift other => returning Py.ONum (__lshift__ other)
  | RLShift other => returning Py.ONum (__rlshift__ other)
  | RShift other => returning Py.ONum (__rshift__ other)
  | RRShift other => returning Py.ONum (__rrshift__ other)
  | And other => returning Py.ONum (__and__ other)
  | RAnd other => returning Py.ONum (__rand__ other)
  | Or other => returning Py.ONum (__or__ other)
  | ROr other => returning Py.ONum (__ror__ other)
  | Xor other => returning Py.ONum (__xor__ other)
  | RXor other => returning Py.ONum (__rxor__ other)
  | Bytes => returning Py.OBytes __bytes__
  | Complex => returning of_complex __complex__
  | Int => returning of_Z __int__
  | Float => returning of_float __float__
  | Round n => returning Py.ONum (__round__ n)
  | Imag => returning Py.ONum imag
  | Real => returning Py.ONum real
  | Conjugate => returning of_complex conjugate
  end.

(** What the host computes, for each read-only method, from the value held
    and the operand: a plain number, truth value, string, pair, complex number
    or byte string. *)
Definition plain (q : query) (held : Py.number) : Py.result Py.object :=
  let num (r : Py.result Py.number) := Py.bind r (fun n => Py.Ok (Py.ONum n)) in
  let pair (r : Py.result (Py.number * Py.number)) :=
    Py.bind r (fun p => Py.Ok (of_pair p)) in
  match q with
  | Lt other => Py.Ok (Py.OBool (Py.lt held other))
  | Le other => Py.Ok (Py.OBool (Py.le held other))
  | Eq other => Py.Ok (Py.OBool (Py.eq held other))
  | Ne other => Py.Ok (Py.OBool (Py.ne held other))
  | Ge other => Py.Ok (Py.OBool (Py.ge held other))
  | Gt other => Py.Ok (Py.OBool (Py.gt held other))
  | Neg => Py.Ok (Py.ONum (Py.neg held))
  | Pos => Py.Ok (Py.ONum (Py.pos held))
  | Abs => Py.Ok (Py.ONum (Py.abs held))
  | Invert => num (Py.invert held)
  | Index => Py.Ok (Py.ONum held)
  | Bool => Py.Ok (Py.OBool (Py.bool_ held))
  | Str | Repr => Py.Ok (Py.OStr (Py.str held))
  | Hash => Py.Ok (of_Z (Py.hash_str (Py.str held)))
  | Add other => num (Py.add held other)
  | Sub other => num (Py.sub held other)
  | Mul other => num (Py.mul held other)
  | TrueDiv other => num (Py.truediv held other)
  | Pow power modulo => num (Py.pow held power modulo)
  | RPow power modulo => num (Py.pow power held modulo)
  | FloorDiv other => num (Py.floordiv held other)
  | RFloorDiv other => num (Py.floordiv other held)
  | Mod other => num (Py.mod_ held other)
  | RMod other => num (Py.mod_ other held)
  | DivMod other => pair (Py.divmod held other)
  | RDivMod other => pair (Py.divmod other held)
  | LShift other => num (Py.lshift held other)
  | RLShift other => num (Py.lshift other held)
  | RShift other => num (Py.rshift held other)
  | RRShift other => num (Py.rshift other held)
  | And other => num (Py.and_ held other)
  | RAnd other => num (Py.and_ other held)
  | Or other => num (Py.or_ held other)
  | ROr other => num (Py.or_ other held)
  | Xor other => num (Py.xor held other)
  | RXor other => num (Py.xor other held)
  | Bytes => Py.bind (Py.bytes held) (fun b => Py.Ok (Py.OBytes b))
  | Complex | Conjugate =>
      Py.bind (Py.complex held) (fun c => Py.Ok (of_complex c))
  | Int => Py.bind (Py.int held) (fun z => Py.Ok (of_Z z))
  | Float => Py.bind (Py.float_ held) (fun f => Py.Ok (of_float f))
  | Round n => num (Py.round_ndigits held n)
  | Imag => Py.Ok (Py.ONum (Py.PyInt 0))
  | Real => Py.Ok (Py.ONum held)
  end.

(** A sequence of mutating calls, each on the state the one before left, up
    to the first that raises: the objects the calls returned. *)
Fixpoint run (ms : list mutation) : M (list Py.object) :=
  match ms with
  | [] => ret []
  | m :: ms' => o <- call m ;; os <- run ms' ;; ret (o :: os)
  end.

(** The value held before and after each call of such a sequence. *)
Fixpoint held_values (ms : list mutation) (self : instance)
  : list (Py.number * Py.number) :=
  match ms with
  | [] => []
  | m :: ms' =>
      let self' := fst (call m self) in
      (_val self, _val self') :: held_values ms' self'
  end.

End Methods.

End ObservableInteger.

(* ================================================================== *)
(** * observers/integer.py *)
(* ================================================================== *)

(** An argument that is one value or a list of values. *)
Inductive one_or_list (A : Type) :=
| Single (a : A)
| Several (l : list A).

Arguments Single {A} a.
Arguments Several {A} l.

Module ConditionObserver.

(** Modelled from the spec: the class [ConditionObserver] is not among the
    sources. It stores the name, the status and the reason of an observer and
    exposes them; these are its attributes. *)
Record instance := {
  name : option string;
  _status : bool;
  _reason : option string
}.

(** Modelled from the spec: [ConditionObserver.__init__(name, default,
    observables)], not among the sources, stores the name, takes [default] as
    the status, has no reason yet, and registers with the observables. *)
Definition __init__ (name : option string) (default : bool) : instance :=
  {| name := name; _status := default; _reason := None |}.

End ConditionObserver.

Module IntegerConditionObserver.

(** The attributes of an [IntegerConditionObserver] instance: those its base
    class holds, and its thresholds. *)
Record instance := {
  condition : ConditionObserver.instance;
  divisible_by : option (list Z);
  if_less_than : option Z;
  if_more_than : option Z;
  at_specific_value : list (option Z)
}.

(** [self._status] and [self._reason] *)
Definition _status (self : instance) : bool :=
  ConditionObserver._status (condition self).

Definition _reason (self : instance) : option string :=
  ConditionObserver._reason (condition self).

(** [self._reason = reason; self._status = status] *)
Definition conclude (reason : option string) (status : bool) (self : instance)
  : instance :=
  {| condition :=
       {| ConditionObserver.name := ConditionObserver.name (condition self);
          ConditionObserver._status := status;
          ConditionObserver._reason := reason |};
     divisible_by := divisible_by self;
     if_less_than := if_less_than self;
     if_more_than := if_more_than self;
     at_specific_value := at_specific_value self |}.

(** [bound is not None and test(bound)], keeping the bound. *)
Definition not_none_and (bound : option Z) (test : Z -> bool) : option Z :=
  match bound with
  | Some b => if test b then Some b else None
  | None => None
  end.

(** [new_val in values], [None] entries never matching. *)
Definition member (new_val : Z) (values : list (option Z)) : bool :=
  existsb (fun e => match e with Some x => new_val =? x | None => false end)
          values.

(** The loop over the divisors: the first [div_val] with
    [(new_val % div_val) == 0], if any. *)
Fixpoint first_divisor (new_val : Z) (divisors : list Z)
  : Py.result (option Z) :=
  match divisors with
  | [] => Py.Ok None
  | div_val :: rest =>
      Py.bind (Py.mod_ (Py.PyInt new_val) (Py.PyInt div_val)) (fun r =>
        if Py.eq r (Py.PyInt 0) then Py.Ok (Some div_val)
        else first_divisor new_val rest)
  end.

(** [_update_status(self, *, new_val, method, other, previous)] *)
Definition _update_status (new_val : Z) (method : string)
                          (other previous : option Py.number)
                          (self : instance)
  : instance * Py.result Py.object :=
  (* Specific iteration *)
  if member new_val (at_specific_value self)
  then (conclude (Some ("Specifically chosen value " ++ Py.str_int new_val))
                 true self, Py.Ok Py.ONone)
  else
    (* Select iteration at specified iteration interval *)
    match match divisible_by self with
          | Some divisors => first_divisor new_val divisors
          | None => Py.Ok None
          end with
    | Py.Raise e => (self, Py.Raise e)
    | Py.Ok (Some div_val) =>
        (conclude (Some ("Value " ++ Py.str_int new_val ++ " divisible by "
                           ++ Py.str_int div_val))
                  true self, Py.Ok Py.ONone)
    | Py.Ok None =>
        (* Check for lower limit *)
        match not_none_and (if_less_than self) (fun bound => new_val <? bound) with
        | Some bound =>
            (conclude (Some ("Value " ++ Py.str_int new_val ++ " < "
                               ++ Py.str_int bound))
                      true self, Py.Ok Py.ONone)
        | None =>
            (* Check for upper limit *)
            match not_none_and (if_more_than self) (fun bound => bound <? new_val) with
            | Some bound =>
                (conclude (Some ("Value " ++ Py.str_int new_val ++ " > "
                                   ++ Py.str_int bound))
                          true self, Py.Ok Py.ONone)
            | None =>
                (* Don't select iteration *)
                (conclude None false self, Py.Ok Py.ONone)
            end
        end
    end.

(** The attribute assignments of [__init__]: the base class is given
    [default=False], and a single value becomes a list of one (so that
    [at_specific_value] is never [None], and the test for it in
    [_update_status] always passes). *)
Definition configure (name : option string)
                     (divisible_by : option (one_or_list Z))
                     (if_less_than if_more_than : option Z)
                     (at_specific_value : option (one_or_list (option Z)))
  : instance :=
  {| condition := ConditionObserver.__init__ name false;
     divisible_by := match divisible_by with
                     | Some (Several l) => Some l
                     | None => None
                     | Some (Single d) => Some [d]
                     end;
     if_less_than := if_less_than;
     if_more_than := if_more_than;
     at_specific_value := match at_specific_value with
                          | Some (Several l) => l
                          | Some (Single (Some v)) => [Some v]
                          | Some (Single None) | None => [None]
                          end |}.

(** [_initialize(self, observable)], [observable.val] being an integer. *)
Definition _initialize (observable_val : Z) (self : instance)
  : instance * Py.result Py.object :=
  _update_status observable_val "ObserverInitialize" None None self.

(** [IntegerConditionObserver.__init__]: the instance it leaves, or the
    exception that ends the construction. *)
Definition __init__ (name : option string) (observable_val : Z)
                    (divisible_by : option (one_or_list Z))
                    (if_less_than if_more_than : option Z)
                    (at_specific_value : option (one_or_list (option Z)))
  : Py.result instance :=
  match _initialize observable_val
          (configure name divisible_by if_less_than if_more_than
                     at_specific_value) with
  | (self, Py.Ok _) => Py.Ok self
  | (_, Py.Raise e) => Py.Raise e
  end.

End IntegerConditionObserver.

Module CounterConditionObserver.

(** The attributes of a [CounterConditionObserver] instance: those its base
    class sets, and its own. *)
Record instance := {
  base : IntegerConditionObserver.instance;
  at_relative : option float;
  if_first_iteration : bool;
  last_value : option Z;
  first_val : Z
}.

Definition with_base (self : instance) (b : IntegerConditionObserver.instance)
  : instance :=
  {| base := b;
     at_relative := at_relative self;
     if_first_iteration := if_first_iteration self;
     last_value := last_value self;
     first_val := first_val self |}.

(** [self._status] and [self._reason] *)
Definition _status (self : instance) : bool :=
  IntegerConditionObserver._status (base self).

Definition _reason (self : instance) : option string :=
  IntegerConditionObserver._reason (base self).

(** [self._reason = reason] *)
Definition set_reason (reason : option string) (self : instance) : instance :=
  with_base self
    (IntegerConditionObserver.conclude reason (_status self) (base self)).

(** [self._reason = reason; self._status = status] *)
Definition conclude (reason : option string) (status : bool) (self : instance)
  : instance :=
  with_base self (IntegerConditionObserver.conclude reason status (base self)).

(** [round(self.last_value * self.at_relative)] *)
Definition relative_step (last_value : Z) (at_relative : float) : Py.result Z :=
  Py.bind (Py.mul (Py.PyInt last_value) (Py.PyFloat at_relative)) Py.round.

(** The reason of the relative branch. *)
Definition relative_reason (step : Z) (at_relative : float) : string :=
  "Iteration divisible by " ++ Py.str_int step ++ " "
    ++ "(increase by " ++ Py.format_percent at_relative
    ++ " of total iterations)".

(** [_update_status(self, *, new_val, method, other, previous)] *)
Definition _update_status (new_val : Z) (method : string)
                          (other previous : option Py.number)
                          (self : instance)
  : instance * Py.result Py.object :=
  (* Standard integer conditions *)
  match IntegerConditionObserver._update_status
          new_val method other previous (base self) with
  | (b, Py.Raise e) => (with_base self b, Py.Raise e)
  | (b, Py.Ok _) =>
      let self := with_base self b in
      (* First iteration *)
      if if_first_iteration self && (new_val =? first_val self)
      then (conclude (Some "First count.") true self, Py.Ok Py.ONone)
      else
        (* Last iteration *)
        if match last_value self with
           | Some l => new_val =? l
           | None => false
           end
        then (conclude (Some "Last count.") true self, Py.Ok Py.ONone)
        else
          (* Relative *)
          match last_value self, at_relative self with
          | Some l, Some r =>
              match relative_step l r with
              | Py.Raise e => (self, Py.Raise e)
              | Py.Ok step =>
                  match Py.mod_ (Py.PyInt new_val) (Py.PyInt step) with
                  | Py.Raise e => (self, Py.Raise e)
                  | Py.Ok m =>
                      if Py.eq m (Py.PyInt 0)
                      then (set_reason (Some (relative_reason step r)) self,
                            Py.Ok (Py.OBool true))
                      else (self, Py.Ok Py.ONone)
                  end
              end
          | _, _ => (self, Py.Ok Py.ONone)
          end
  end.

(** [at_relative if isinstance(at_relative, float) else 1. / float(at_relative)] *)
Definition normalize_relative (at_relative : option Py.number)
  : Py.result float :=
  match at_relative with
  | Some (Py.PyFloat f) => Py.Ok f
  | Some (Py.PyInt z) =>
      Py.bind (Py.float_ (Py.PyInt z)) (fun f => Py.float_truediv 1 f)
  | None => Py.Raise (Py.host_error Py.TypeError)
  end.

(** [CounterConditionObserver.__init__]; [at_relative=None] is the default
    of the parameter. The instance it leaves, or the exception that ends the
    construction. *)
Definition __init__ (name : option string) (observable_val : Z)
                    (at_every : option (one_or_list Z))
                    (at_relative : option Py.number)
                    (if_first_count : bool) (last_value : option Z)
                    (if_less_than if_more_than : option Z)
                    (at_specific_value : option (one_or_list (option Z)))
                    (first_val : Z)
  : Py.result instance :=
  Py.bind (normalize_relative at_relative) (fun r =>
    let self :=
      {| base := IntegerConditionObserver.configure
                   name at_every if_less_than if_more_than at_specific_value;
         at_relative := Some r;
         if_first_iteration := if_first_count;
         last_value := last_value;
         first_val := first_val |} in
    (* IntegerConditionObserver.__init__ ends with self._initialize, which
       calls the _update_status of this class *)
    match _update_status observable_val "ObserverInitialize" None None self with
    | (self', Py.Ok _) => Py.Ok self'
    | (_, Py.Raise e) => Py.Raise e
    end).

End CounterConditionObserver.

(* ================================================================== *)
(** * Reading reasons, and a host to evaluate on *)
(* ================================================================== *)

(** [needle in hay] for strings. *)
Fixpoint contains (needle hay : string) : bool :=
  String.prefix needle hay
  || match hay with
     | EmptyString => false
     | String _ rest => contains needle rest
     end.

(** A reason mentions a word when it contains it, whatever the case. *)
Definition mentions (word : string) (reason : option string) : bool :=
  match reason with
  | Some r => contains (Py.lower word) (Py.lower r)
  | None => false
  end.

(** A policy under which [_ireturn] has no coercion to offer: a string
    that is neither "round" nor "int", whatever its case, or an object that is
    neither a string nor callable. *)
Definition rejecting (p : Observable.policy) : bool :=
  match p with
  | Observable.PolicyStr s =>
      negb (String.eqb (Py.lower s) "round")
      && negb (String.eqb (Py.lower s) "int")
  | Observable.PolicyCallable _ => false
  | Observable.PolicyOther => true
  end.

(** [pow] on integers: exact for an exponent that is not negative, reduced
    by a modulus when one is given. Powers that involve a float or a negative
    exponent belong to the C library and are not answered here. *)
Definition integer_pow (base exp : Py.number) (modulo : option Py.number)
  : Py.result Py.number :=
  match base, exp, modulo with
  | Py.PyInt b, Py.PyInt e, None =>
      if e <? 0 then Py.Raise (Py.host_error Py.NotImplementedError)
      else Py.Ok (Py.PyInt (b ^ e))
  | Py.PyInt b, Py.PyInt e, Some (Py.PyInt m) =>
      if m =? 0 then Py.Raise (Py.host_error Py.ValueError)
      else if e <? 0 then Py.Raise (Py.host_error Py.NotImplementedError)
      else Py.Ok (Py.PyInt ((b ^ e) mod m))
  | _, _, Some _ => Py.Raise (Py.host_error Py.TypeError)
  | _, _, None => Py.Raise (Py.host_error Py.NotImplementedError)
  end.

(** CPython started with [PYTHONHASHSEED=0]: the string hash runs under
    the all-zero key, SipHash-1-3 from version 3.11 on and SipHash-2-4 before,
    over whatever power function and float formatting the C library brings. *)
Definition unsalted (rounds : nat * nat)
                    (pow : Py.number -> Py.number -> option Py.number
                           -> Py.result Py.number)
                    (float_repr : float -> string) : Py.Host :=
  {| Py.host_pow := pow;
     Py.host_float_repr := float_repr;
     Py.host_hash_rounds := rounds;
     Py.host_hash_secret := (0, 0) |}.

(** A machine with room for byte strings of less than [2 ^ 30] bytes. *)
Definition example_memory : Py.Memory :=
  {| Py.allocates := fun size => size <? 2 ^ 30 |}.

(** The host the examples below are evaluated on: CPython 3.11. None of the
    examples raises to a power that is no integer or prints a float by [repr],
    for which this host has integer powers and the fixed six-decimal format
    only. *)
Definition example_host : Py.Host :=
  unsalted (1%nat, 3%nat) integer_pow Py.format_fixed.

(** ** The instances the examples use *)

(** What [ObservableInteger(z, incorrect_type_handler=handler)] constructs. *)
Definition wrapper (z : Z) (handler : Observable.policy) : Observable.instance :=
  {| Observable._val := Py.PyInt z;
     Observable._incorrect_type_policy := handler;
     Observable.final_value := None;
     Observable.__name__ := "ObservableInteger";
     Observable.notified := [] |}.

(** A wrapper as a failed mutation left it: holding the float [f]. *)
Definition wrapper_holding (f : float) (handler : Observable.policy)
  : Observable.instance :=
  Observable.with_val (Py.PyFloat f) (wrapper 0 handler).

(** What [IntegerConditionObserver(observable, divisible_by=[3, 7],
    if_less_than=-1, if_more_than=9, at_specific_value=[2, 6])] constructs
    on an observable that holds -2. *)
Definition integer_observer : IntegerConditionObserver.instance :=
  {| IntegerConditionObserver.condition :=
       {| ConditionObserver.name := None;
          ConditionObserver._status := true;
          ConditionObserver._reason := Some "Value -2 < -1" |};
     IntegerConditionObserver.divisible_by := Some [3; 7];
     IntegerConditionObserver.if_less_than := Some (-1);
     IntegerConditionObserver.if_more_than := Some 9;
     IntegerConditionObserver.at_specific_value := [Some 2; Some 6] |}.

(** An integer observer one of whose divisors is 0, as
    [IntegerConditionObserver(observable, divisible_by=[3, 0, 5],
    at_specific_value=4)] constructs it on an observable that holds 4. *)
Definition observer_with_zero_divisor : IntegerConditionObserver.instance :=
  {| IntegerConditionObserver.condition :=
       {| ConditionObserver.name := None;
          ConditionObserver._status := true;
          ConditionObserver._reason := Some "Specifically chosen value 4" |};
     IntegerConditionObserver.divisible_by := Some [3; 0; 5];
     IntegerConditionObserver.if_less_than := None;
     IntegerConditionObserver.if_more_than := None;
     IntegerConditionObserver.at_specific_value := [Some 4] |}.

(** What [CounterConditionObserver(observable, at_every=at_every,
    at_relative=.5, if_first_count=if_first_count, last_value=last_value)]
    constructs, the status and the reason being those of its first
    evaluation. *)
Definition counter_observer (at_every : option (list Z)) (if_first_count : bool)
                            (last_value : option Z)
                            (status : bool) (reason : option string)
  : CounterConditionObserver.instance :=
  {| CounterConditionObserver.base :=
       {| IntegerConditionObserver.condition :=
            {| ConditionObserver.name := None;
               ConditionObserver._status := status;
               ConditionObserver._reason := reason |};
          IntegerConditionObserver.divisible_by := at_every;
          IntegerConditionObserver.if_less_than := None;
          IntegerConditionObserver.if_more_than := None;
          IntegerConditionObserver.at_specific_value := [None] |};
     CounterConditionObserver.at_relative := Some 0.5%float;
     CounterConditionObserver.if_first_iteration := if_first_count;
     CounterConditionObserver.last_value := last_value;
     CounterConditionObserver.first_val := 0 |}.

(** A counter of ten steps that also triggers at every fifth, watching an
    observable that holds 1. *)
Definition counter_to_ten : CounterConditionObserver.instance :=
  counter_observer (Some [5]) true (Some 10) false None.

(** A counter whose only count, 0, is the first and the last, watching an
    observable that holds 0. *)
Definition counter_of_one : CounterConditionObserver.instance :=
  counter_observer None true (Some 0) true (Some "First count.").

(** A counter with the relative trigger only: every half of ten steps,
    watching an observable that holds 1. *)
Definition counter_by_halves : CounterConditionObserver.instance :=
  counter_observer None false (Some 10) false None.

(** A counter that was given the fraction and no last value:
    [CounterConditionObserver(observable, at_relative=.5)] on an observable
    that holds 1. *)
Definition counter_without_end : CounterConditionObserver.instance :=
  counter_observer None false None false None.

(* ================================================================== *)
(** * Properties of the host's rounding *)
(* ================================================================== *)

Module PyFacts.

(** [div_half_even n d] is an integer nearest to [n / d], and the even one
    when two are equally near. *)
Lemma div_half_even_nearest (n d : Z) :
  0 < d ->
  2 * Z.abs (n - Py.div_half_even n d * d) <= d
  /\ (2 * Z.abs (n - Py.div_half_even n d * d) = d ->
      Z.even (Py.div_half_even n d) = true).
Proof.
  intros D. unfold Py.div_half_even.
  pose proof (Z.div_mod n d ltac:(lia)) as E.
  pose proof (Z.mod_pos_bound n d D) as B.
  destruct (Z.compare_spec (2 * (n mod d)) d) as [C | C | C].
  - destruct (Z.even (n / d)) eqn:V.
    + split; [lia | intros _; exact V].
    + split; [lia | intros _].
      rewrite Z.even_add, V. reflexivity.
  - split; lia.
  - split; lia.
Qed.

(** [round] leaves an integer as it is, and takes a float that holds an
    integer to that integer. *)
Lemma div_half_even_exact (z : Z) : Py.div_half_even z 1 = z.
Proof.
  unfold Py.div_half_even. rewrite Z.div_1_r, Z.mod_1_r. reflexivity.
Qed.

End PyFacts.

(* ================================================================== *)
(** * Properties of the wrapper *)
(* ================================================================== *)

Module ObservableIntegerFacts.
Import Observable ObservableInteger.
#[local] Open Scope list_scope.

Section Facts.
Context {H : Py.Host} {Mem : Py.Memory}.

Lemma plain_is_unwrapped (q : query) (held : Py.number) :
  plain q held <> Py.Ok Py.OSelf.
Proof.
  destruct q; cbn; try discriminate;
    match goal with
    | |- Py.bind ?r _ <> _ => destruct r; cbn; discriminate
    end.
Qed.

(** C8. Every read-only method of the wrapper (comparisons, unary
    operators, arithmetic, divisions and modulo, power, shifts, bitwise
    operators and the conversions) returns what the host computes from the
    value held and the operand, a plain object and never the wrapper; it
    leaves every attribute of the wrapper as it was, the notifications sent
    so far included. *)
Theorem readonly_methods_frame (q : query) (self : instance) :
  ask q self = (self, plain q (_val self))
  /\ snd (ask q self) <> Py.Ok Py.OSelf
  /\ _val (fst (ask q self)) = _val self
  /\ notified (fst (ask q self)) = notified self.
Proof.
  assert (E : ask q self = (self, plain q (_val self))).
  { destruct q; cbn; unfold returning, bind, get_val, ret, lift; cbn;
      try reflexivity;
      match goal with
      | |- context [match ?r with Py.Ok _ => _ | Py.Raise _ => _ end] =>
          destruct r; reflexivity
      end. }
  rewrite E; cbn. repeat split. apply plain_is_unwrapped.
Qed.

(** ** [_ireturn], branch by branch *)

Lemma with_val_same (self : instance) : with_val (_val self) self = self.
Proof. destruct self; reflexivity. Qed.

Lemma _ireturn_integer method other kw self :
  Py.isinstance_int (_val self) = true ->
  _ireturn method other kw self
  = (notified_of method other kw (_val self) self, Py.Ok Py.OSelf).
Proof.
  intros E. unfold _ireturn, notified_of. rewrite E; cbn.
  now rewrite with_val_same.
Qed.

Lemma _ireturn_round method other kw self s :
  Py.isinstance_int (_val self) = false ->
  _incorrect_type_policy self = PolicyStr s ->
  Py.lower s = "round" ->
  _ireturn method other kw self
  = match Py.round (_val self) with
    | Py.Ok z => (notified_of method other kw (Py.PyInt z) self, Py.Ok Py.OSelf)
    | Py.Raise e => (self, Py.Raise e)
    end.
Proof.
  intros E P L. unfold _ireturn, notified_of. rewrite E, P, L; cbn.
  unfold bind, get_val, lift. destruct (Py.round (_val self)); reflexivity.
Qed.

Lemma _ireturn_int method other kw self s :
  Py.isinstance_int (_val self) = false ->
  _incorrect_type_policy self = PolicyStr s ->
  Py.lower s <> "round" ->
  Py.lower s = "int" ->
  _ireturn method other kw self
  = match Py.int (_val self) with
    | Py.Ok z => (notified_of method other kw (Py.PyInt z) self, Py.Ok Py.OSelf)
    | Py.Raise e => (self, Py.Raise e)
    end.
Proof.
  intros E P R L. unfold _ireturn, notified_of. rewrite E, P; cbn.
  apply String.eqb_neq in R. rewrite R, L; cbn.
  unfold bind, get_val, lift. destruct (Py.int (_val self)); reflexivity.
Qed.

Lemma _ireturn_callable method other kw self f :
  Py.isinstance_int (_val self) = false ->
  _incorrect_type_policy self = PolicyCallable f ->
  _ireturn method other kw self
  = match f (_val self) with
    | Py.Ok v => (notified_of method other kw v self, Py.Ok Py.OSelf)
    | Py.Raise e => (self, Py.Raise e)
    end.
Proof.
  intros E P. unfold _ireturn, notified_of. rewrite E, P; cbn.
  unfold bind, get_val, lift. destruct (f (_val self)); reflexivity.
Qed.

Lemma _ireturn_unrecognized method other kw self s :
  Py.isinstance_int (_val self) = false ->
  _incorrect_type_policy self = PolicyStr s ->
  Py.lower s <> "round" ->
  Py.lower s <> "int" ->
  _ireturn method other kw self
  = (self, Py.Raise (not_an_integer (__name__ self) (_val self))).
Proof.
  intros E P R L. unfold _ireturn. rewrite E, P; cbn.
  apply String.eqb_neq in R, L. now rewrite R, L.
Qed.

Lemma _ireturn_other method other kw self :
  Py.isinstance_int (_val self) = false ->
  _incorrect_type_policy self = PolicyOther ->
  _ireturn method other kw self
  = (self, Py.Raise (not_an_integer (__name__ self) (_val self))).
Proof.
  intros E P. unfold _ireturn. now rewrite E, P.
Qed.

(** Whenever [_ireturn] returns, it returns [self] and has notified once,
    with the value it leaves. *)
Lemma _ireturn_returns method other kw self self' r :
  _ireturn method other kw self = (self', Py.Ok r) ->
  r = Py.OSelf
  /\ notified self' = notified self ++ [event method other (_val self') kw].
Proof.
  destruct (Py.isinstance_int (_val self)) eqn:E.
  - rewrite _ireturn_integer by assumption. intros [= <- <-]. now split.
  - destruct (_incorrect_type_policy self) as [s | f |] eqn:P.
    + destruct (string_dec (Py.lower s) "round") as [R | R].
      * rewrite (_ireturn_round _ _ _ _ s) by assumption.
        destruct (Py.round (_val self)); intros [= <- <-]. now split.
      * destruct (string_dec (Py.lower s) "int") as [L | L].
        -- rewrite (_ireturn_int _ _ _ _ s) by assumption.
           destruct (Py.int (_val self)); intros [= <- <-]. now split.
        -- rewrite (_ireturn_unrecognized _ _ _ _ s) by assumption.
           discriminate.
    + rewrite (_ireturn_callable _ _ _ _ f) by assumption.
      destruct (f (_val self)); intros [= <- <-]. now split.
    + rewrite _ireturn_other by assumption. discriminate.
Qed.

(** ** The mutating methods *)

(** Every mutating method stores what its operator computes and hands over
    to [_ireturn]; it stops before, the wrapper untouched, when the operator
    raises. *)
Lemma call_unfold (m : mutation) (self : instance) :
  call m self
  = match operator m (_val self) with
    | Py.Ok v =>
        _ireturn (method_name m) (operand m) (further m (_val self))
                 (with_val v self)
    | Py.Raise e => (self, Py.Raise e)
    end.
Proof.
  destruct m; cbn;
    unfold __iadd__, __isub__, __imul__, __itruediv__, __ifloordiv__,
      __imod__, __ipow__, __ilshift__, __irshift__, __iand__, __ixor__,
      __ior__, set, ObservableNumeric.__iadd__, ObservableNumeric.__isub__,
      ObservableNumeric.__imul__, ObservableNumeric.__itruediv__,
      ObservableNumeric.__ifloordiv__, ObservableNumeric.set,
      bind, get_val, lift, set_val; cbn;
    try reflexivity;
    match goal with
    | |- context [match ?r with Py.Ok _ => _ | Py.Raise _ => _ end] =>
        destruct r; reflexivity
    end.
Qed.

Lemma get_previous (m : mutation) (previous v : Py.number) :
  Observable.get "previous"
    (event (method_name m) (operand m) v (further m previous))
  = Some (Py.ONum previous)
  /\ Observable.get "new_val"
       (event (method_name m) (operand m) v (further m previous))
     = Some (Py.ONum v).
Proof. destruct m; split; reflexivity. Qed.

(** One mutating call that returns: it returns the wrapper and has sent one
    event, which carries the value held before and the value held after. *)
Lemma call_returns (m : mutation) (self self' : instance) (r : Py.object) :
  call m self = (self', Py.Ok r) ->
  r = Py.OSelf
  /\ exists ev,
       notified self' = notified self ++ [ev]
       /\ Observable.get "previous" ev = Some (Py.ONum (_val self))
       /\ Observable.get "new_val" ev = Some (Py.ONum (_val self')).
Proof.
  rewrite call_unfold. destruct (operator m (_val self)) as [v | e];
    [ | discriminate ].
  intros E. apply _ireturn_returns in E as [-> N]. split; [reflexivity | ].
  eexists. split; [exact N | apply get_previous].
Qed.

(** C7. For every sequence of mutating calls (the augmented assignments
    and [set]) that all return, each call returns the wrapper itself, and the
    events sent are, in order, one per call, each carrying as [previous] the
    value held just before its call and as [new_val] the value held after the
    coercion step of its call. *)
Theorem events_carry_previous_and_new
    (ms : list mutation) (self self' : instance) (outs : list Py.object) :
  run ms self = (self', Py.Ok outs) ->
  outs = repeat Py.OSelf (List.length ms)
  /\ exists events,
       notified self' = notified self ++ events
       /\ map (fun ev => (Observable.get "previous" ev,
                          Observable.get "new_val" ev)) events
          = map (fun '(before, after) =>
                   (Some (Py.ONum before), Some (Py.ONum after)))
                (held_values ms self).
Proof.
  revert self outs. induction ms as [ | m ms IH]; intros self outs; cbn.
  - unfold ret. intros [= <- <-]. split; [reflexivity | ].
    exists []. now rewrite app_nil_r.
  - unfold bind at 1. destruct (call m self) as [self1 [o | e]] eqn:C;
      [ | discriminate ].
    unfold bind at 1. destruct (run ms self1) as [self2 [os | e]] eqn:R;
      [ | discriminate ].
    unfold ret. intros [= <- <-].
    apply call_returns in C as (-> & ev & N & P & V).
    apply IH in R as (-> & events & N' & E).
    split; [reflexivity | ].
    exists (ev :: events). split.
    + rewrite N', N, <- app_assoc. reflexivity.
    + cbn. rewrite P, V, E. reflexivity.
Qed.

(** C3. A mutating call on a wrapper whose policy is a string that is,
    whatever its case, neither "round" nor the truncating keyword "int", and
    whose operator computes a value that is no integer, fails: it raises a
    [ValueError] whose message names the class of the wrapper and the type of
    the value; the hub is not invoked, so no observer is notified; the wrapper
    keeps the value that was computed. *)
Theorem unrecognized_policy_fails
    (m : mutation) (self : instance) (s : string) (v : Py.number) :
  _incorrect_type_policy self = PolicyStr s ->
  Py.lower s <> "round" ->
  Py.lower s <> "int" ->
  operator m (_val self) = Py.Ok v ->
  Py.isinstance_int v = false ->
  snd (call m self)
  = Py.Raise
      (Py.mk_exn Py.ValueError
         (Some ("Value of " ++ __name__ self
                  ++ " is not an integer. Instead it is <class 'float'>.")%string))
  /\ notified (fst (call m self)) = notified self
  /\ _val (fst (call m self)) = v.
Proof.
  intros P R L O E. rewrite call_unfold, O.
  rewrite (_ireturn_unrecognized _ _ _ _ s) by assumption. cbn.
  destruct v; [discriminate | ]. repeat split.
Qed.

(** C6, as the code has it. [_ireturn] leaves an integer value alone.
    A value that is no integer is replaced by [round(value)] under a policy
    string that is "round" whatever its case, which is also the default of the
    constructor; by [int(value)] under "int" whatever its case; by
    [policy(value)] under a callable policy. The string "truncate" is no
    keyword: under it, whatever its case, the call raises and the value stays. *)
Theorem coercion_follows_policy
    (method : string) (other : Py.number) (kw : kwargs) (self : instance) :
  (Py.isinstance_int (_val self) = true ->
   _ireturn method other kw self
   = (notified_of method other kw (_val self) self, Py.Ok Py.OSelf))
  /\ (Py.isinstance_int (_val self) = false ->
      (forall s z,
          _incorrect_type_policy self = PolicyStr s ->
          Py.lower s = "round" ->
          Py.round (_val self) = Py.Ok z ->
          _ireturn method other kw self
          = (notified_of method other kw (Py.PyInt z) self, Py.Ok Py.OSelf))
      /\ (forall s z,
             _incorrect_type_policy self = PolicyStr s ->
             Py.lower s = "int" ->
             Py.int (_val self) = Py.Ok z ->
             _ireturn method other kw self
             = (notified_of method other kw (Py.PyInt z) self, Py.Ok Py.OSelf))
      /\ (forall f v,
             _incorrect_type_policy self = PolicyCallable f ->
             f (_val self) = Py.Ok v ->
             _ireturn method other kw self
             = (notified_of method other kw v self, Py.Ok Py.OSelf))
      /\ (forall s,
             _incorrect_type_policy self = PolicyStr s ->
             Py.lower s = "truncate" ->
             _ireturn method other kw self
             = (self, Py.Raise (not_an_integer (__name__ self) (_val self)))))
  /\ (forall val fv w,
         new val fv None = Py.Ok w ->
         _incorrect_type_policy w = PolicyStr "round").
Proof.
  split; [ | split].
  - apply _ireturn_integer.
  - intros E. repeat split.
    + intros s z P L R. rewrite (_ireturn_round _ _ _ _ s) by assumption.
      now rewrite R.
    + intros s z P L R. rewrite (_ireturn_int _ _ _ _ s); try assumption.
      * now rewrite R.
      * rewrite L. discriminate.
    + intros f v P R. rewrite (_ireturn_callable _ _ _ _ f) by assumption.
      now rewrite R.
    + intros s P L. apply (_ireturn_unrecognized _ _ _ _ s); try assumption;
        rewrite L; discriminate.
  - intros val fv w. unfold new, __init__, bind, lift.
    destruct (Py.int _); cbn; [ | discriminate]. now intros [= <-].
Qed.

(** Under a policy that is a string, a mutating call that returns leaves an
    integer in the wrapper: the value computed was one, or it was rounded or
    truncated to one. *)
Lemma string_policy_leaves_integer
    (m : mutation) (self self' : instance) (r : Py.object) (s : string) :
  _incorrect_type_policy self = PolicyStr s ->
  call m self = (self', Py.Ok r) ->
  Py.isinstance_int (_val self') = true.
Proof.
  intros P. rewrite call_unfold.
  destruct (operator m (_val self)) as [v | e]; [ | discriminate].
  destruct (Py.isinstance_int v) eqn:E.
  - rewrite _ireturn_integer by exact E. intros [= <- _]. exact E.
  - destruct (string_dec (Py.lower s) "round") as [R | R].
    + rewrite (_ireturn_round _ _ _ _ s) by assumption.
      cbn [_val with_val]. destruct (Py.round v); now intros [= <- _].
    + destruct (string_dec (Py.lower s) "int") as [L | L].
      * rewrite (_ireturn_int _ _ _ _ s) by assumption.
        cbn [_val with_val]. destruct (Py.int v); now intros [= <- _].
      * rewrite (_ireturn_unrecognized _ _ _ _ s) by assumption.
        discriminate.
Qed.

(** C2, as the code has it. On any wrapper, the first [next] on the
    generator of [range(5)] sets [final_value] to 4 and then fails with a
    [TypeError], because [set] is called with a keyword argument [method] it
    does not have: the generator is finished, nothing was yielded, the value
    held is unchanged and no notification was sent. *)
Theorem range_fails_at_its_first_step (self : instance) :
  next (range [5]) self
  = (with_final_value (Some (Py.PyInt 4)) self, Finished,
     Failed (Py.host_error Py.TypeError))
  /\ iterate 6 (range [5]) self
     = (with_final_value (Some (Py.PyInt 4)) self, [],
        Some (Failed (Py.host_error Py.TypeError)))
  /\ notified (fst (fst (next (range [5]) self))) = notified self
  /\ _val (fst (fst (next (range [5]) self))) = _val self.
Proof. repeat split. Qed.

End Facts.
End ObservableIntegerFacts.

(* ================================================================== *)
(** * Properties of the observers *)
(* ================================================================== *)

Module IntegerConditionObserverFacts.
Import IntegerConditionObserver.

Lemma member_In (new_val : Z) (values : list (option Z)) :
  member new_val values = true <-> In (Some new_val) values.
Proof.
  unfold member. rewrite existsb_exists. split.
  - intros ([x | ] & I & E); [ | discriminate].
    apply Z.eqb_eq in E. now subst.
  - intros I. exists (Some new_val). split; [assumption | apply Z.eqb_refl].
Qed.

(** The evaluation writes the status and the reason only. *)
Lemma integer_chain_configuration new_val method other previous self :
  let self' := fst (_update_status new_val method other previous self) in
  ConditionObserver.name (condition self')
  = ConditionObserver.name (condition self)
  /\ divisible_by self' = divisible_by self
  /\ if_less_than self' = if_less_than self
  /\ if_more_than self' = if_more_than self
  /\ at_specific_value self' = at_specific_value self.
Proof.
  unfold _update_status.
  destruct (member _ _); [now cbn | ].
  destruct (match divisible_by self with Some _ => _ | None => _ end)
    as [[d | ] | e]; [now cbn | | now cbn].
  destruct (not_none_and (if_less_than self) _); [now cbn | ].
  destruct (not_none_and (if_more_than self) _); now cbn.
Qed.

(** The integer chain raises nothing when no divisor is zero. *)
Lemma first_divisor_returns (new_val : Z) (divisors : list Z) :
  ~ In 0 divisors -> Py.is_ok (first_divisor new_val divisors) = true.
Proof.
  induction divisors as [ | d ds IH]; cbn; intros N; [reflexivity | ].
  destruct (Z.eqb_spec d 0) as [-> | _]; [exfalso; apply N; now left | ].
  cbn.
  match goal with
  | |- context [if ?c then _ else _] => destruct c; [reflexivity | ]
  end.
  apply IH. intros I. apply N. now right.
Qed.

Lemma integer_chain_returns new_val method other previous self :
  (forall divisors, divisible_by self = Some divisors -> ~ In 0 divisors) ->
  Py.is_ok (snd (_update_status new_val method other previous self)) = true.
Proof.
  intros N. unfold _update_status.
  destruct (member _ _); [reflexivity | ].
  destruct (divisible_by self) as [ds | ] eqn:D.
  - pose proof (first_divisor_returns new_val ds (N ds eq_refl)) as R.
    destruct (first_divisor new_val ds) as [[d | ] | e];
      [reflexivity | | discriminate].
    destruct (not_none_and (if_less_than self) _); [reflexivity | ].
    destruct (not_none_and (if_more_than self) _); reflexivity.
  - destruct (not_none_and (if_less_than self) _); [reflexivity | ].
    destruct (not_none_and (if_more_than self) _); reflexivity.
Qed.

(** C4. When the new value is one of the configured specific values and
    is also divisible by a configured divisor, the evaluation returns with the
    status set and with the reason of the specific value, naming that value;
    the reason is never the one of a divisor: the first check that matches
    ends the evaluation. *)
Theorem specific_value_before_divisor
    (self : instance) (new_val : Z) (method : string)
    (other previous : option Py.number) (divisors : list Z) (d : Z) :
  In (Some new_val) (at_specific_value self) ->
  divisible_by self = Some divisors ->
  In d divisors ->
  new_val mod d = 0 ->
  let self' := fst (_update_status new_val method other previous self) in
  snd (_update_status new_val method other previous self) = Py.Ok Py.ONone
  /\ _status self' = true
  /\ _reason self'
     = Some ("Specifically chosen value " ++ Py.str_int new_val)
  /\ forall div_val,
       _reason self'
       <> Some ("Value " ++ Py.str_int new_val ++ " divisible by "
                  ++ Py.str_int div_val).
Proof.
  intros I _ _ _. apply member_In in I.
  unfold _update_status. rewrite I. cbn.
  repeat split. intros div_val. discriminate.
Qed.

End IntegerConditionObserverFacts.

Module CounterConditionObserverFacts.
Import CounterConditionObserver.

#[local] Ltac done := cbn; repeat split; first [assumption | reflexivity].

(** The evaluation writes the status and the reason only. *)
Lemma counter_configuration new_val method other previous self :
  let self' := fst (_update_status new_val method other previous self) in
  at_relative self' = at_relative self
  /\ if_first_iteration self' = if_first_iteration self
  /\ last_value self' = last_value self
  /\ first_val self' = first_val self
  /\ IntegerConditionObserver.divisible_by (base self')
     = IntegerConditionObserver.divisible_by (base self)
  /\ IntegerConditionObserver.at_specific_value (base self')
     = IntegerConditionObserver.at_specific_value (base self).
Proof.
  pose proof (IntegerConditionObserverFacts.integer_chain_configuration
                new_val method other previous (base self)) as (_ & D & _ & _ & A).
  unfold _update_status.
  destruct (IntegerConditionObserver._update_status _ _ _ _ (base self))
    as [b [o | e]]; cbn in D, A; [ | done].
  cbn [if_first_iteration first_val last_value at_relative with_base].
  destruct (if_first_iteration self && (new_val =? first_val self));
    [done | ].
  destruct (match last_value self with Some _ => _ | None => false end);
    [done | ].
  destruct (last_value self) as [l | ] eqn:L; [ | done].
  destruct (at_relative self) as [r | ] eqn:R; [ | done].
  destruct (relative_step l r) as [step | e]; [ | done].
  destruct (Py.mod_ _ _) as [m | e]; [ | done].
  destruct (Py.eq m _); done.
Qed.

(** Once the integer chain has returned, the first count wins. *)
Lemma counter_first new_val method other previous self :
  Py.is_ok (snd (IntegerConditionObserver._update_status
                   new_val method other previous (base self))) = true ->
  if_first_iteration self = true ->
  new_val = first_val self ->
  let self' := fst (_update_status new_val method other previous self) in
  snd (_update_status new_val method other previous self) = Py.Ok Py.ONone
  /\ _status self' = true
  /\ _reason self' = Some "First count.".
Proof.
  intros R F ->. unfold _update_status.
  destruct (IntegerConditionObserver._update_status _ _ _ _ (base self))
    as [b [o | e]]; [ | discriminate].
  cbn [if_first_iteration first_val with_base]. rewrite F, Z.eqb_refl. now cbn.
Qed.

(** Once the integer chain has returned and the first count does not apply,
    the last count wins. *)
Lemma counter_last new_val method other previous self :
  Py.is_ok (snd (IntegerConditionObserver._update_status
                   new_val method other previous (base self))) = true ->
  if_first_iteration self && (new_val =? first_val self) = false ->
  last_value self = Some new_val ->
  let self' := fst (_update_status new_val method other previous self) in
  snd (_update_status new_val method other previous self) = Py.Ok Py.ONone
  /\ _status self' = true
  /\ _reason self' = Some "Last count.".
Proof.
  intros R F L. unfold _update_status.
  destruct (IntegerConditionObserver._update_status _ _ _ _ (base self))
    as [b [o | e]]; [ | discriminate].
  cbn [if_first_iteration first_val last_value with_base].
  rewrite F, L, Z.eqb_refl. now cbn.
Qed.

(** The relative branch, when it is reached and matches, writes the reason
    and returns [True], and leaves the status as the integer chain set it. *)
Lemma counter_relative new_val method other previous self l r step :
  Py.is_ok (snd (IntegerConditionObserver._update_status
                   new_val method other previous (base self))) = true ->
  if_first_iteration self && (new_val =? first_val self) = false ->
  last_value self = Some l ->
  new_val <> l ->
  at_relative self = Some r ->
  relative_step l r = Py.Ok step ->
  step <> 0 ->
  new_val mod step = 0 ->
  let self' := fst (_update_status new_val method other previous self) in
  snd (_update_status new_val method other previous self)
  = Py.Ok (Py.OBool true)
  /\ _reason self' = Some (relative_reason step r)
  /\ _status self'
     = IntegerConditionObserver._status
         (fst (IntegerConditionObserver._update_status
                 new_val method other previous (base self))).
Proof.
  intros R F L N A S Z M. unfold _update_status.
  destruct (IntegerConditionObserver._update_status _ _ _ _ (base self))
    as [b [o | e]]; [ | discriminate].
  cbn [if_first_iteration first_val last_value at_relative with_base].
  apply Z.eqb_neq in N, Z. rewrite F, L, N, A, S.
  cbn. rewrite Z, M. now cbn.
Qed.

(** C5, as the code has it. For a counter observer that triggers on the
    first count, with first value 0 and a last value other than 0: evaluating 0
    sets the status with the reason "First count."; evaluating the last value
    afterwards sets the status with the reason "Last count."; both whatever
    the integer chain found at that value, a divisor included, provided the
    chain returned (it raises when it reaches a divisor 0). *)
Theorem first_and_last_override_the_chain
    (self : instance) (l : Z) (m1 m2 : string)
    (o1 p1 o2 p2 : option Py.number) :
  let self1 := fst (_update_status 0 m1 o1 p1 self) in
  let self2 := fst (_update_status l m2 o2 p2 self1) in
  if_first_iteration self = true ->
  first_val self = 0 ->
  last_value self = Some l ->
  l <> 0 ->
  Py.is_ok (snd (IntegerConditionObserver._update_status
                   0 m1 o1 p1 (base self))) = true ->
  Py.is_ok (snd (IntegerConditionObserver._update_status
                   l m2 o2 p2 (base self1))) = true ->
  (_status self1 = true
   /\ _reason self1 = Some "First count."
   /\ mentions "first" (_reason self1) = true)
  /\ (_status self2 = true
      /\ _reason self2 = Some "Last count."
      /\ mentions "last" (_reason self2) = true).
Proof.
  intros self1 self2 F V L N R1 R2.
  destruct (counter_first 0 m1 o1 p1 self R1 F (eq_sym V))
    as (_ & S1 & E1).
  fold self1 in S1, E1.
  destruct (counter_configuration 0 m1 o1 p1 self)
    as (_ & F1 & L1 & V1 & _).
  fold self1 in F1, L1, V1.
  destruct (counter_last l m2 o2 p2 self1 R2) as (_ & S2 & E2).
  - rewrite V1, V. apply Z.eqb_neq in N. rewrite N. apply andb_false_r.
  - now rewrite L1.
  - fold self2 in S2, E2. rewrite S1, E1, S2, E2. repeat split.
Qed.

(** The relative branch is the only one that returns [True]: the evaluation
    returns it only for a counter that has a last value and a fraction, at a
    value that is not the last and that the step divides. *)
Lemma relative_branch_taken new_val method other previous self :
  snd (_update_status new_val method other previous self)
  = Py.Ok (Py.OBool true) ->
  exists (l : Z) (r : float) (step : Z),
    last_value self = Some l
    /\ new_val <> l
    /\ at_relative self = Some r
    /\ relative_step l r = Py.Ok step
    /\ step <> 0
    /\ new_val mod step = 0.
Proof.
  unfold _update_status.
  destruct (IntegerConditionObserver._update_status _ _ _ _ (base self))
    as [b [o | e]]; [ | discriminate].
  cbn [if_first_iteration first_val last_value at_relative with_base].
  destruct (if_first_iteration self && (new_val =? first_val self));
    [discriminate | ].
  destruct (last_value self) as [l | ]; [ | discriminate].
  destruct (Z.eqb_spec new_val l) as [ | N]; [discriminate | ].
  destruct (at_relative self) as [r | ]; [ | discriminate].
  destruct (relative_step l r) as [step | e] eqn:S; [ | discriminate].
  unfold Py.mod_, Py.arith.
  destruct (Z.eqb_spec step 0) as [ | NZ]; [discriminate | ].
  cbn [Py.bind]. unfold Py.eq, Py.compare.
  destruct (Z.compare_spec (new_val mod step) 0) as [M | | ];
    [ | discriminate | discriminate].
  intros _. exists l, r, step. repeat split; assumption.
Qed.

(** C10, as the code has it. Without [at_relative], left at its default
    [None], the construction of a counter observer fails with a [TypeError],
    whatever the other arguments: the fraction is normalized before anything
    else, and [float(None)] raises. A construction that succeeds leaves a
    float in [at_relative], never [None], and the last value as it was given.
    The relative predicate needs more than the fraction: the evaluation
    returns [True], which only the relative branch does, only for a counter
    that has a last value too; and a counter without a last value, which is
    the default, is evaluated in the same way whatever its fraction is. *)
Theorem relative_needs_fraction_and_last_value :
  (forall name observable_val at_every if_first_count last_value
          if_less_than if_more_than at_specific_value first_val,
      __init__ name observable_val at_every None if_first_count last_value
               if_less_than if_more_than at_specific_value first_val
      = Py.Raise (Py.host_error Py.TypeError))
  /\ (forall name observable_val at_every at_relative if_first_count
             last_value if_less_than if_more_than at_specific_value first_val
             self,
         __init__ name observable_val at_every at_relative if_first_count
                  last_value if_less_than if_more_than at_specific_value
                  first_val
         = Py.Ok self ->
         (exists r : float,
            CounterConditionObserver.at_relative self = Some r
            /\ normalize_relative at_relative = Py.Ok r)
         /\ CounterConditionObserver.last_value self = last_value)
  /\ (forall new_val method other previous self,
         snd (_update_status new_val method other previous self)
         = Py.Ok (Py.OBool true) ->
         exists (l : Z) (r : float) (step : Z),
           CounterConditionObserver.last_value self = Some l
           /\ new_val <> l
           /\ CounterConditionObserver.at_relative self = Some r
           /\ relative_step l r = Py.Ok step
           /\ step <> 0
           /\ new_val mod step = 0)
  /\ (forall new_val method other previous
             (b : IntegerConditionObserver.instance) (r1 r2 : option float)
             (first : bool) (v : Z),
         let counter r :=
           {| base := b;
              at_relative := r;
              if_first_iteration := first;
              last_value := None;
              first_val := v |} in
         let after1 := _update_status new_val method other previous (counter r1) in
         let after2 := _update_status new_val method other previous (counter r2) in
         snd after1 = snd after2
         /\ base (fst after1) = base (fst after2)
         /\ snd after1 <> Py.Ok (Py.OBool true)).
Proof.
  split; [reflexivity | split; [ | split]].
  - intros name observable_val at_every at_relative if_first_count last_value
           if_less_than if_more_than at_specific_value first_val self.
    unfold __init__.
    destruct (normalize_relative at_relative) as [r | e]; cbn;
      [ | discriminate].
    match goal with
    | |- context [_update_status ?v ?m ?o ?p ?s] =>
        pose proof (counter_configuration v m o p s) as (A & _ & L & _);
        destruct (_update_status v m o p s) as [self' [out | e]]
    end; [ | discriminate].
    intros [= <-]. split; [ | exact L]. exists r.
    split; [exact A | reflexivity].
  - intros new_val method other previous self.
    apply relative_branch_taken.
  - intros new_val method other previous b r1 r2 first v counter after1 after2.
    subst after1 after2 counter. unfold _update_status. cbn [base].
    destruct (IntegerConditionObserver._update_status _ _ _ _ b)
      as [b' [o | e]]; cbn [fst snd]; [ | now repeat split].
    cbn [if_first_iteration first_val last_value at_relative with_base].
    destruct (first && (new_val =? v)); cbn [fst snd]; now repeat split.
Qed.

End CounterConditionObserverFacts.

(* ================================================================== *)
(** * The constructors on the examples *)
(* ================================================================== *)

Module Constructed.

Lemma wrapper_constructed (z : Z) (handler : Observable.policy) :
  ObservableInteger.new (Some (Py.PyInt z)) None (Some handler)
  = Py.Ok (wrapper z handler).
Proof. reflexivity. Qed.

Lemma integer_observer_constructed :
  IntegerConditionObserver.__init__
    None (-2) (Some (Several [3; 7])) (Some (-1)) (Some 9)
    (Some (Several [Some 2; Some 6]))
  = Py.Ok integer_observer.
Proof. reflexivity. Qed.

Lemma counter_to_ten_constructed :
  CounterConditionObserver.__init__
    None 1 (Some (Single 5)) (Some (Py.PyFloat 0.5)) true (Some 10)
    None None None 0
  = Py.Ok counter_to_ten.
Proof. vm_compute. reflexivity. Qed.

Lemma counter_of_one_constructed :
  CounterConditionObserver.__init__
    None 0 None (Some (Py.PyFloat 0.5)) true (Some 0) None None None 0
  = Py.Ok counter_of_one.
Proof. vm_compute. reflexivity. Qed.

Lemma counter_by_halves_constructed :
  CounterConditionObserver.__init__
    None 1 None (Some (Py.PyFloat 0.5)) false (Some 10) None None None 0
  = Py.Ok counter_by_halves.
Proof. vm_compute. reflexivity. Qed.

End Constructed.

(* ================================================================== *)
(** * Equality and hash of the wrapper *)
(* ================================================================== *)

Module HashFacts.
Import Observable.

Lemma eq_of_integers (n m : Z) : Py.eq (Py.PyInt n) (Py.PyInt m) = (n =? m).
Proof.
  unfold Py.eq, Py.compare.
  destruct (Z.compare_spec n m), (Z.eqb_spec n m); try reflexivity; lia.
Qed.

(** Under the zero key, either string hash of CPython tells "-1" from
    "-2". *)
Lemma zero_key_tells_minus_one_from_minus_two rounds pow float_repr :
  In rounds [(1%nat, 3%nat); (2%nat, 4%nat)] ->
  Py.hash_str (H := unsalted rounds pow float_repr) "-1"
  <> Py.hash_str (H := unsalted rounds pow float_repr) "-2".
Proof. intros [<- | [<- | []]]; vm_compute; discriminate. Qed.

(** The wrapper compares by the number it holds and hashes by the string of
    that number. Equality returns what the comparison of the number held
    with the operand gives and leaves the wrapper as it was; a wrapper holding
    the integer [n] is equal to the integer [m] exactly when [n = m]. The hash
    is the string hash of [str] of the number held, the decimal digits of an
    integer. Under every hash key that tells the strings "-1" and "-2"
    apart, one of -1 and -2 is an integer that the wrapper holding it equals
    and whose hash is not the hash of the wrapper. *)
Theorem equality_by_value_hash_by_string (H : Py.Host) :
  (forall (other : Py.number) (self : instance),
      ObservableNumeric.__eq__ other self
      = (self, Py.Ok (Py.eq (_val self) other)))
  /\ (forall (n m : Z) (self : instance),
         _val self = Py.PyInt n ->
         snd (ObservableNumeric.__eq__ (Py.PyInt m) self) = Py.Ok (n =? m))
  /\ (forall self : instance,
         ObservableNumeric.__hash__ self
         = (self, Py.Ok (Py.hash_str (Py.str (_val self)))))
  /\ (forall (n : Z) (self : instance),
         _val self = Py.PyInt n ->
         snd (ObservableNumeric.__hash__ self)
         = Py.Ok (Py.hash_str (Py.str_int n)))
  /\ (Py.hash_str "-1" <> Py.hash_str "-2" ->
      exists n : Z,
        In n [-1; -2]
        /\ forall self : instance,
             _val self = Py.PyInt n ->
             snd (ObservableNumeric.__eq__ (Py.PyInt n) self) = Py.Ok true
             /\ snd (ObservableNumeric.__hash__ self) <> Py.Ok (Py.hash_int n)).
Proof.
  assert (E : forall n m self,
             _val self = Py.PyInt n ->
             snd (ObservableNumeric.__eq__ (Py.PyInt m) self)
             = Py.Ok (n =? m)).
  { intros n m self V. unfold ObservableNumeric.__eq__, bind, get_val, ret.
    cbn [snd]. now rewrite V, eq_of_integers. }
  assert (S : forall n self,
             _val self = Py.PyInt n ->
             snd (ObservableNumeric.__hash__ self)
             = Py.Ok (Py.hash_str (Py.str_int n))).
  { intros n self V.
    unfold ObservableNumeric.__hash__, ObservableNumeric.__repr__,
      ObservableNumeric.__str__, bind, get_val, ret.
    cbn [snd]. now rewrite V. }
  repeat split; [exact E | exact S | ].
  intros D.
  assert (X : exists n : Z,
             In n [-1; -2]
             /\ Py.hash_str (Py.str_int n) <> Py.hash_int n).
  { destruct (Z.eq_dec (Py.hash_str "-1") (-2)) as [A | A].
    - exists (-2). split; [right; now left | ].
      change (Py.hash_str "-2" <> -2). congruence.
    - exists (-1). split; [now left | exact A]. }
  destruct X as (n & I & N). exists n. split; [exact I | ].
  intros self V. rewrite (E n n self V), (S n self V), Z.eqb_refl.
  split; [reflexivity | ]. intros [= A]. now apply N.
Qed.

(** On CPython 3.11 with the key zeroed: the strings "-1" and "-2" have
    different hashes, and one of -1 and -2 is equal to the wrapper that holds
    it and is hashed differently. *)
Lemma minus_one_or_two_equal_but_hashed_by_string :
  exists n : Z,
    In n [-1; -2]
    /\ forall self : instance,
         _val self = Py.PyInt n ->
         snd (ObservableNumeric.__eq__ (Py.PyInt n) self) = Py.Ok true
         /\ snd (ObservableNumeric.__hash__ (H := example_host) self)
            <> Py.Ok (Py.hash_int n).
Proof.
  apply (proj2 (proj2 (proj2 (proj2
           (equality_by_value_hash_by_string example_host))))).
  vm_compute. discriminate.
Defined.

End HashFacts.

(* ================================================================== *)
(** * The properties on the examples *)
(* ================================================================== *)

Module Scenarios.
Import Observable ObservableInteger.
#[local] Open Scope list_scope.

(** 7 divided in place by 2 under a policy string that is no keyword. *)
Lemma seven_halves_under_unknown_policy :
  let self := wrapper 7 (PolicyStr "Strict") in
  let after := call (H := example_host) (ITrueDiv (Py.PyInt 2)) self in
  snd after
  = Py.Raise
      (Py.mk_exn Py.ValueError
         (Some "Value of ObservableInteger is not an integer. Instead it is <class 'float'>."))
  /\ notified (fst after) = []
  /\ _val (fst after) = Py.PyFloat 3.5.
Proof.
  apply (ObservableIntegerFacts.unrecognized_policy_fails
           (H := example_host) (ITrueDiv (Py.PyInt 2))
           (wrapper 7 (PolicyStr "Strict")) "Strict" (Py.PyFloat 3.5)).
  - reflexivity.
  - vm_compute. discriminate.
  - vm_compute. discriminate.
  - vm_compute. reflexivity.
  - reflexivity.
Defined.

(** C6, as stated, fails on the keyword "Truncate": 7 divided in place by 2
    leaves 3.5, whose truncated form is 3, but the call raises and the wrapper
    keeps 3.5. *)
Lemma truncate_is_no_keyword :
  let self := wrapper 7 (PolicyStr "Truncate") in
  Py.truediv (Py.PyInt 7) (Py.PyInt 2) = Py.Ok (Py.PyFloat 3.5)
  /\ Py.int (Py.PyFloat 3.5) = Py.Ok 3
  /\ call (H := example_host) (ITrueDiv (Py.PyInt 2)) self
     = (with_val (Py.PyFloat 3.5) self,
        Py.Raise (not_an_integer "ObservableInteger" (Py.PyFloat 3.5))).
Proof. vm_compute. repeat split. Qed.

(** 7 divided in place by 2 under the default policy leaves an integer. *)
Lemma seven_halves_left_integer :
  Py.isinstance_int
    (_val (fst (call (H := example_host) (ITrueDiv (Py.PyInt 2))
                  (wrapper 7 (PolicyStr "round")))))
  = true.
Proof.
  apply (ObservableIntegerFacts.string_policy_leaves_integer
           (H := example_host) (ITrueDiv (Py.PyInt 2))
           (wrapper 7 (PolicyStr "round")) _ Py.OSelf "round").
  - reflexivity.
  - vm_compute. reflexivity.
Defined.

(** 3.5 under the policy "Round" becomes 4, and the observers are told so. *)
Lemma seven_halves_rounded :
  let self := wrapper_holding 3.5 (PolicyStr "Round") in
  _ireturn "__itruediv__" (Py.PyInt 2) [("previous", Py.ONum (Py.PyInt 7))] self
  = (notified_of "__itruediv__" (Py.PyInt 2)
       [("previous", Py.ONum (Py.PyInt 7))] (Py.PyInt 4) self,
     Py.Ok Py.OSelf).
Proof.
  intros self.
  destruct (ObservableIntegerFacts.coercion_follows_policy
              "__itruediv__" (Py.PyInt 2)
              [("previous", Py.ONum (Py.PyInt 7))] self) as (_ & C & _).
  destruct (C eq_refl) as (R & _).
  apply (R "Round" 4).
  - reflexivity.
  - reflexivity.
  - vm_compute. reflexivity.
Defined.

(** Six mutating calls in a row, a division that needs rounding among them. *)
Lemma events_of_six_calls :
  let ms := [IAdd (Py.PyInt 7); ITrueDiv (Py.PyInt 2); ISet (Py.PyInt 10);
             IFloorDiv (Py.PyInt 4); ISub (Py.PyInt 1); IMul (Py.PyInt 3)] in
  let self := wrapper 0 (PolicyStr "round") in
  let self' := fst (run (H := example_host) ms self) in
  repeat Py.OSelf 6 = repeat Py.OSelf (List.length ms)
  /\ exists events,
       notified self' = notified self ++ events
       /\ map (fun ev => (Observable.get "previous" ev,
                          Observable.get "new_val" ev)) events
          = map (fun '(before, after) =>
                   (Some (Py.ONum before), Some (Py.ONum after)))
                (held_values (H := example_host) ms self).
Proof.
  intros ms self self'.
  apply (ObservableIntegerFacts.events_carry_previous_and_new
           (H := example_host) ms self self' (repeat Py.OSelf 6)).
  vm_compute. reflexivity.
Defined.

(** 6 is a specific value and divisible by 3. *)
Lemma six_is_specific_before_divisible :
  let after := IntegerConditionObserver._update_status
                 6 "__iadd__" (Some (Py.PyInt 1)) (Some (Py.PyInt 5))
                 integer_observer in
  snd after = Py.Ok Py.ONone
  /\ IntegerConditionObserver._status (fst after) = true
  /\ IntegerConditionObserver._reason (fst after)
     = Some "Specifically chosen value 6"
  /\ forall div_val,
       IntegerConditionObserver._reason (fst after)
       <> Some ("Value " ++ Py.str_int 6 ++ " divisible by "
                  ++ Py.str_int div_val)%string.
Proof.
  apply (IntegerConditionObserverFacts.specific_value_before_divisor
           integer_observer 6 "__iadd__" (Some (Py.PyInt 1))
           (Some (Py.PyInt 5)) [3; 7] 3).
  - cbn. auto.
  - reflexivity.
  - cbn. auto.
  - reflexivity.
Defined.

(** C5, as stated, fails when the last value is the first value: on the
    counter of one count, 0 is the last value, and evaluating it again, after
    it was evaluated as the first, gives "First count.", which mentions no
    "last". *)
Lemma last_count_that_is_the_first :
  CounterConditionObserver.__init__
    None 0 None (Some (Py.PyFloat 0.5)) true (Some 0) None None None 0
  = Py.Ok counter_of_one
  /\ CounterConditionObserver.if_first_iteration counter_of_one = true
  /\ CounterConditionObserver.first_val counter_of_one = 0
  /\ CounterConditionObserver.last_value counter_of_one = Some 0
  /\ let self1 := fst (CounterConditionObserver._update_status
                         0 "set" (Some (Py.PyInt 0)) (Some (Py.PyInt 0))
                         counter_of_one) in
     let self2 := fst (CounterConditionObserver._update_status
                         0 "set" (Some (Py.PyInt 0)) (Some (Py.PyInt 0))
                         self1) in
     CounterConditionObserver._status self2 = true
     /\ CounterConditionObserver._reason self2 = Some "First count."
     /\ mentions "last" (CounterConditionObserver._reason self2) = false.
Proof. vm_compute. repeat split. Qed.

(** On the counter to ten, 10 is also divisible by 5: the integer chain
    alone says so, and the counter says "Last count.". *)
Lemma first_then_last_on_counter_to_ten :
  IntegerConditionObserver._reason
    (fst (IntegerConditionObserver._update_status
            10 "__iadd__" (Some (Py.PyInt 1)) (Some (Py.PyInt 9))
            (CounterConditionObserver.base counter_to_ten)))
  = Some "Value 10 divisible by 5"
  /\ let self1 := fst (CounterConditionObserver._update_status
                         0 "set" (Some (Py.PyInt 0)) (Some (Py.PyInt 1))
                         counter_to_ten) in
     let self2 := fst (CounterConditionObserver._update_status
                         10 "__iadd__" (Some (Py.PyInt 1)) (Some (Py.PyInt 9))
                         self1) in
     (CounterConditionObserver._status self1 = true
      /\ CounterConditionObserver._reason self1 = Some "First count."
      /\ mentions "first" (CounterConditionObserver._reason self1) = true)
     /\ (CounterConditionObserver._status self2 = true
         /\ CounterConditionObserver._reason self2 = Some "Last count."
         /\ mentions "last" (CounterConditionObserver._reason self2) = true).
Proof.
  split; [reflexivity | ].
  apply (CounterConditionObserverFacts.first_and_last_override_the_chain
           counter_to_ten 10 "set" "__iadd__"
           (Some (Py.PyInt 0)) (Some (Py.PyInt 1))
           (Some (Py.PyInt 1)) (Some (Py.PyInt 9))).
  - reflexivity.
  - reflexivity.
  - reflexivity.
  - discriminate.
  - reflexivity.
  - reflexivity.
Defined.

(** The counter without a last value was given a float and keeps it, and
    has no last value; the counter by halves, which returns [True] at 5, has
    both. *)
Lemma halves_with_and_without_last_value :
  ((exists r : float,
      CounterConditionObserver.at_relative counter_without_end = Some r
      /\ CounterConditionObserver.normalize_relative (Some (Py.PyFloat 0.5))
         = Py.Ok r)
   /\ CounterConditionObserver.last_value counter_without_end = None)
  /\ exists (l : Z) (r : float) (step : Z),
       CounterConditionObserver.last_value counter_by_halves = Some l
       /\ 5 <> l
       /\ CounterConditionObserver.at_relative counter_by_halves = Some r
       /\ CounterConditionObserver.relative_step l r = Py.Ok step
       /\ step <> 0
       /\ 5 mod step = 0.
Proof.
  split.
  - apply (proj1 (proj2
             CounterConditionObserverFacts.relative_needs_fraction_and_last_value)
             None 1 None (Some (Py.PyFloat 0.5)) false None
             None None None 0 counter_without_end).
    vm_compute. reflexivity.
  - apply (proj1 (proj2 (proj2
             CounterConditionObserverFacts.relative_needs_fraction_and_last_value))
             5 "__iadd__" (Some (Py.PyInt 1)) (Some (Py.PyInt 4))
             counter_by_halves).
    vm_compute. reflexivity.
Defined.

(** A counter observer with the relative predicate disabled can be built:
    [CounterConditionObserver(observable, at_relative=.5)], without a last
    value, is constructed, holds the fraction, and its evaluation of whatever
    value, 5 included, returns [None] and leaves it as it was, without status
    and without reason. The same counter built with [last_value=10] is the
    counter by halves, whose evaluation of 5 returns [True] with the reason of
    the relative branch. *)
Lemma counter_with_relative_disabled :
  CounterConditionObserver.__init__
    None 1 None (Some (Py.PyFloat 0.5)) false None None None None 0
  = Py.Ok counter_without_end
  /\ CounterConditionObserver.at_relative counter_without_end = Some 0.5%float
  /\ CounterConditionObserver._status counter_without_end = false
  /\ CounterConditionObserver._reason counter_without_end = None
  /\ (forall (new_val : Z) (method : string) (other previous : option Py.number),
         CounterConditionObserver._update_status
           new_val method other previous counter_without_end
         = (counter_without_end, Py.Ok Py.ONone))
  /\ CounterConditionObserver.__init__
       None 1 None (Some (Py.PyFloat 0.5)) false (Some 10) None None None 0
     = Py.Ok counter_by_halves
  /\ snd (CounterConditionObserver._update_status
            5 "__iadd__" (Some (Py.PyInt 1)) (Some (Py.PyInt 4))
            counter_by_halves)
     = Py.Ok (Py.OBool true).
Proof.
  repeat split; try (vm_compute; reflexivity).
Qed.

(** C1 on the code. The counter by halves of ten has the step
    [round(10 * 0.5) = 5]; the value 5 is neither the first nor the last
    value and matches nothing in the integer chain, and 5 modulo 5 is 0. The
    evaluation writes the reason of the relative branch and returns [True],
    but the status stays [False]: the branch never assigns it. *)
Theorem relative_match_leaves_status_unset :
  CounterConditionObserver.__init__
    None 1 None (Some (Py.PyFloat 0.5)) false (Some 10) None None None 0
  = Py.Ok counter_by_halves
  /\ CounterConditionObserver.relative_step 10 0.5 = Py.Ok 5
  /\ Py.mod_ (Py.PyInt 5) (Py.PyInt 5) = Py.Ok (Py.PyInt 0)
  /\ let after := CounterConditionObserver._update_status
                    5 "__iadd__" (Some (Py.PyInt 1)) (Some (Py.PyInt 4))
                    counter_by_halves in
     snd after = Py.Ok (Py.OBool true)
     /\ CounterConditionObserver._reason (fst after)
        = Some "Iteration divisible by 5 (increase by 50.000000% of total iterations)"
     /\ CounterConditionObserver._status (fst after) = false.
Proof. vm_compute. repeat split. Qed.

End Scenarios.

(* ================================================================== *)
(** * More on the mutating methods *)
(* ================================================================== *)

Module MutationFacts.
Import Observable ObservableInteger ObservableIntegerFacts.
#[local] Open Scope list_scope.

Section Facts.
Context {H : Py.Host}.

(** [_ireturn] either raises, on a value that is no integer and with the
    wrapper as it found it, or returns the wrapper after one notification. *)
Lemma _ireturn_shape method other kw self :
  (exists e,
      _ireturn method other kw self = (self, Py.Raise e)
      /\ Py.isinstance_int (_val self) = false)
  \/ (exists v, _ireturn method other kw self
                = (notified_of method other kw v self, Py.Ok Py.OSelf)).
Proof.
  destruct (Py.isinstance_int (_val self)) eqn:E.
  - right. eexists. now apply _ireturn_integer.
  - destruct (_incorrect_type_policy self) as [s | f | ] eqn:P.
    + destruct (string_dec (Py.lower s) "round") as [R | R].
      * rewrite (_ireturn_round _ _ _ _ s) by assumption.
        destruct (Py.round (_val self)); [right | left]; eauto.
      * destruct (string_dec (Py.lower s) "int") as [L | L].
        -- rewrite (_ireturn_int _ _ _ _ s) by assumption.
           destruct (Py.int (_val self)); [right | left]; eauto.
        -- left. rewrite (_ireturn_unrecognized _ _ _ _ s) by assumption.
           eauto.
    + rewrite (_ireturn_callable _ _ _ _ f) by assumption.
      destruct (f (_val self)); [right | left]; eauto.
    + left. rewrite _ireturn_other by assumption. eauto.
Qed.

(** A mutating call whose operator raises (a division by zero, a shift by
    a float, a negative shift count) raises the same exception and leaves the
    wrapper exactly as it was: the old value, no notification. *)
Theorem failed_operator_changes_nothing
    (m : mutation) (self : instance) (e : Py.exn) :
  operator m (_val self) = Py.Raise e ->
  call m self = (self, Py.Raise e).
Proof. intros O. now rewrite call_unfold, O. Qed.

(** A mutating call that raises, for whatever reason, has notified nobody.
    Either the wrapper is untouched, or it holds the value the operator
    computed, which is no integer. *)
Theorem failed_mutation_notifies_nobody
    (m : mutation) (self : instance) (e : Py.exn) :
  snd (call m self) = Py.Raise e ->
  notified (fst (call m self)) = notified self
  /\ (fst (call m self) = self
      \/ exists v,
           operator m (_val self) = Py.Ok v
           /\ Py.isinstance_int v = false
           /\ fst (call m self) = with_val v self).
Proof.
  rewrite call_unfold. destruct (operator m (_val self)) as [v | e'].
  - destruct (_ireturn_shape (method_name m) (operand m)
                (further m (_val self)) (with_val v self))
      as [(e' & -> & I) | (v' & ->)]; cbn; [ | discriminate].
    intros _. split; [reflexivity | right]. exists v. now repeat split.
  - cbn. intros _. split; [reflexivity | now left].
Qed.

(** No mutating call, returning or raising, touches the policy, the final
    value or the class of the wrapper, and none forgets a notification: the
    record of notifications grows by one event or not at all. *)
Theorem mutation_frame (m : mutation) (self : instance) :
  let self' := fst (call m self) in
  _incorrect_type_policy self' = _incorrect_type_policy self
  /\ final_value self' = final_value self
  /\ __name__ self' = __name__ self
  /\ (notified self' = notified self
      \/ exists ev, notified self' = notified self ++ [ev]).
Proof.
  cbv zeta. rewrite call_unfold.
  destruct (operator m (_val self)) as [v | e]; cbn.
  - destruct (_ireturn_shape (method_name m) (operand m)
                (further m (_val self)) (with_val v self))
      as [(e & -> & _) | (v' & ->)]; cbn; repeat split; eauto.
  - repeat split. now left.
Qed.

(** When the operator computes an integer, the policy plays no part: under
    any policy, also one that rejects, the call returns the wrapper, which
    holds that integer, after exactly one notification carrying it. *)
Theorem integer_result_needs_no_policy
    (m : mutation) (self : instance) (v : Py.number) :
  operator m (_val self) = Py.Ok v ->
  Py.isinstance_int v = true ->
  snd (call m self) = Py.Ok Py.OSelf
  /\ _val (fst (call m self)) = v
  /\ notified (fst (call m self))
     = notified self
         ++ [event (method_name m) (operand m) v (further m (_val self))].
Proof.
  intros O I. rewrite call_unfold, O.
  rewrite _ireturn_integer by exact I. now cbn.
Qed.

(** [a / b] is a float whenever it is defined, also for two integers. *)
Lemma truediv_is_float (a b v : Py.number) :
  Py.truediv a b = Py.Ok v -> Py.isinstance_int v = false.
Proof.
  unfold Py.truediv, Py.arith, Py.as_float, Py.int_to_float, Py.float_truediv.
  destruct a as [x | x], b as [y | y]; cbn;
    repeat match goal with
      | |- context [if ?c then _ else _] => destruct c; cbn
      end;
    try discriminate; now intros [= <-].
Qed.

(** Under a rejecting policy an in-place true division never returns,
    whatever the operand and even when the division is exact: its result is
    a float, so the call raises, the division's own error or the
    [ValueError] of [_ireturn], and nobody is notified. *)
Theorem true_division_needs_a_policy (other : Py.number) (self : instance) :
  rejecting (_incorrect_type_policy self) = true ->
  Py.is_ok (snd (call (ITrueDiv other) self)) = false
  /\ notified (fst (call (ITrueDiv other) self)) = notified self.
Proof.
  intros R. rewrite call_unfold. cbn [operator].
  destruct (Py.truediv (_val self) other) as [v | e] eqn:T; [ | now cbn].
  apply truediv_is_float in T.
  destruct (_incorrect_type_policy self) as [s | f | ] eqn:P; cbn in R.
  - apply andb_prop in R as [R1 R2].
    apply negb_true_iff, String.eqb_neq in R1, R2.
    now rewrite (_ireturn_unrecognized _ _ _ _ s).
  - discriminate.
  - now rewrite _ireturn_other.
Qed.

End Facts.

(** The constructor truncates what it is given: a wrapper that was
    constructed holds [int(val)], an integer, has the final value and the
    policy it was given, and has notified nobody. *)
Theorem constructed_wrapper_holds_integer
    (val final : option Py.number) (handler : option policy) (w : instance) :
  new val final handler = Py.Ok w ->
  exists z : Z,
    Py.int (match val with Some v => v | None => Py.PyInt 0 end) = Py.Ok z
    /\ _val w = Py.PyInt z
    /\ final_value w = final
    /\ _incorrect_type_policy w
       = match handler with Some p => p | None => PolicyStr "round" end
    /\ notified w = [].
Proof.
  unfold new, __init__, bind, lift.
  destruct (Py.int _) as [z | e]; cbn; [ | discriminate].
  intros [= <-]. exists z. now repeat split.
Qed.

End MutationFacts.

(* ================================================================== *)
(** * The generator of [range], and the byte strings *)
(* ================================================================== *)

Module RangeFacts.
Import Observable ObservableInteger.
#[local] Open Scope list_scope.

(** The loop of [range] never gets past its first value: [set] does not
    take the keyword [method]. *)
Lemma range_loop_fails (pending : list Z) (self : instance) :
  range_loop pending self
  = (self, Finished,
     match pending with
     | [] => StopIteration
     | _ :: _ => Failed (Py.host_error Py.TypeError)
     end).
Proof. destruct pending; reflexivity. Qed.

Lemma next_of_range (args : list Z) (self : instance) :
  next (range args) self
  = match args with
    | [] => (self, Finished, Failed (Py.host_error Py.IndexError))
    | a :: rest =>
        (with_final_value
           (Some (Py.PyInt (match rest with [] => a | b :: _ => b end - 1)))
           self,
         Finished,
         match Py.range args with
         | Py.Raise e => Failed e
         | Py.Ok [] => StopIteration
         | Py.Ok (_ :: _) => Failed (Py.host_error Py.TypeError)
         end)
    end.
Proof.
  destruct args as [ | a [ | b rest]]; [reflexivity | | ];
    unfold next, range, bind, set_final_value, raise, lift;
    cbv beta iota; destruct (Py.range _) as [[ | i pending] | e];
    reflexivity.
Qed.

(** The first [next] on a generator of [range], whatever the arguments:
    without arguments it fails with an [IndexError] and touches nothing;
    otherwise it sets [final_value] to the bound minus one (the first argument
    when it is alone, the second otherwise) and then propagates the error of
    the built-in [range], stops at once when the sequence is empty, and fails
    with a [TypeError] when it is not. *)
Theorem first_next_of_range (args : list Z) (self : instance) :
  next (range args) self
  = match args with
    | [] => (self, Finished, Failed (Py.host_error Py.IndexError))
    | a :: rest =>
        (with_final_value
           (Some (Py.PyInt (match rest with [] => a | b :: _ => b end - 1)))
           self,
         Finished,
         match Py.range args with
         | Py.Raise e => Failed e
         | Py.Ok [] => StopIteration
         | Py.Ok (_ :: _) => Failed (Py.host_error Py.TypeError)
         end)
    end.
Proof. apply next_of_range. Qed.

(** Iterating the generator of [range], to whatever depth and with
    whatever arguments, yields nothing, notifies nobody and leaves the value
    held as it was: the generator is a one-shot that never delivers. *)
Theorem range_never_yields (fuel : nat) (args : list Z) (self : instance) :
  let '(self', yielded, _) := iterate fuel (range args) self in
  yielded = []
  /\ notified self' = notified self
  /\ _val self' = _val self
  /\ _incorrect_type_policy self' = _incorrect_type_policy self.
Proof.
  destruct fuel as [ | fuel]; [now cbn | ].
  cbn [iterate]. rewrite next_of_range.
  destruct args as [ | a rest]; [now cbn | ].
  destruct (Py.range (a :: rest)) as [[ | i pending] | e]; now cbn.
Qed.

(** A generator that has finished stays finished: every further [next]
    stops the iteration and touches nothing. *)
Lemma finished_stays_finished (self : instance) :
  next Finished self = (self, Finished, StopIteration).
Proof. reflexivity. Qed.

End RangeFacts.

Module BytesFacts.
Import Observable ObservableInteger.
#[local] Open Scope list_scope.

Lemma Z_of_byte_of_Z (z : Z) : 0 <= z < 256 -> Py.Z_of_byte (Py.byte_of_Z z) = z.
Proof.
  intros B. unfold Py.Z_of_byte, Py.byte_of_Z.
  destruct (Byte.of_N (Z.to_N z)) as [b | ] eqn:E.
  - apply Byte.to_of_N in E. rewrite E. lia.
  - apply Byte.of_N_None_iff in E. lia.
Qed.

Lemma length_le_digits (n : nat) (z : Z) : List.length (Py.le_digits n z) = n.
Proof. revert z. induction n; intros z; cbn; [reflexivity | now rewrite IHn]. Qed.

(** The digits written read back as the number modulo [256 ^ n]. *)
Lemma le_value_digits (n : nat) (z : Z) :
  Py.le_value (Py.le_digits n z) = z mod 256 ^ Z.of_nat n.
Proof.
  revert z. induction n as [ | n IH]; intros z.
  - cbn. now rewrite Z.mod_1_r.
  - cbn [Py.le_digits Py.le_value].
    rewrite IH, Z_of_byte_of_Z by (apply Z.mod_pos_bound; lia).
    rewrite Nat2Z.inj_succ, Z.pow_succ_r by lia.
    rewrite Z.rem_mul_r by lia. reflexivity.
Qed.

Lemma in_byteorder_inverse (byteorder : string) (bs out : list Byte.byte) :
  Py.in_byteorder byteorder bs = Py.Ok out ->
  Py.in_byteorder byteorder out = Py.Ok bs
  /\ List.length out = List.length bs.
Proof.
  unfold Py.in_byteorder.
  destruct (String.eqb byteorder "little"); [now intros [= <-] | ].
  destruct (String.eqb byteorder "big"); [ | discriminate].
  intros [= <-]. now rewrite rev_involutive, length_rev.
Qed.

Section Facts.
Context {H : Py.Host} {Mem : Py.Memory}.

(** What [to_bytes] writes, [from_bytes] reads back under the same byte
    order and signedness: the integer itself, or 0 from the empty byte
    string. *)
Lemma from_bytes_to_bytes (z length : Z) (byteorder : string) (signed : bool)
                          (bs : list Byte.byte) :
  Py.to_bytes z length byteorder signed = Py.Ok bs ->
  Py.from_bytes bs byteorder signed = Py.Ok (if length =? 0 then 0 else z).
Proof.
  unfold Py.to_bytes, Py.from_bytes, Py.index_sized.
  destruct ((length <? - 2 ^ 63) || (2 ^ 63 <=? length)); [discriminate | ].
  cbn [Py.bind].
  destruct (Py.in_byteorder byteorder []) as [u | e]; [ | discriminate].
  cbn [Py.bind]. destruct (Z.ltb_spec length 0) as [ | L]; [discriminate | ].
  destruct (Py.new_bytes length) as [[] | e]; [ | discriminate].
  cbn [Py.bind].
  destruct (Py.fits z length signed) eqn:F; [ | discriminate].
  intros W. apply in_byteorder_inverse in W as [-> N]. cbn [Py.bind].
  rewrite N, length_le_digits, le_value_digits, Z2Nat.id by exact L.
  f_equal. unfold Py.fits in F.
  pose proof (Z.pow_pos_nonneg 256 length ltac:(lia) L) as P.
  destruct signed; cbn [andb].
  - destruct (Z.eqb_spec length 0) as [-> | NZ].
    + change (256 ^ 0) with 1. rewrite Z.mod_1_r. reflexivity.
    + apply andb_prop in F as [F1 F2].
      apply Z.leb_le in F1. apply Z.ltb_lt in F2.
      destruct (Z.lt_ge_cases z 0) as [Neg | Pos].
      * replace (z mod 256 ^ length) with (z + 256 ^ length)
          by (apply Z.mod_unique with (q := -1); lia).
        destruct (Z.leb_spec (256 ^ length) (2 * (z + 256 ^ length))); lia.
      * rewrite Z.mod_small by lia.
        destruct (Z.leb_spec (256 ^ length) (2 * z)); lia.
  - apply andb_prop in F as [F1 F2].
    apply Z.leb_le in F1. apply Z.ltb_lt in F2.
    rewrite Z.mod_small by lia.
    destruct (Z.eqb_spec length 0) as [-> | NZ]; [ | reflexivity].
    change (256 ^ 0) with 1 in F2. lia.
Qed.

(** The round trip on the wrapper: when [to_bytes] returns a byte string,
    the wrapper holds an integer and is left as it was, and [from_bytes] on
    that string, with the same byte order and signedness, returns the integer
    held (0 for the empty string), again leaving the wrapper as it was. *)
Theorem to_bytes_then_from_bytes
    (length : Z) (byteorder : string) (signed : bool)
    (self self' : instance) (bs : list Byte.byte) :
  to_bytes length byteorder signed self = (self', Py.Ok bs) ->
  self' = self
  /\ exists z : Z,
       _val self = Py.PyInt z
       /\ from_bytes bs byteorder signed self
          = (self, Py.Ok (if length =? 0 then 0 else z)).
Proof.
  unfold to_bytes, from_bytes, bind, get_val, lift, raise.
  destruct (_val self) as [z | f]; [ | discriminate].
  intros [= <- W]. split; [reflexivity | ]. exists z. split; [reflexivity | ].
  now rewrite (from_bytes_to_bytes z length byteorder signed bs W).
Qed.

(** [bit_length] of a wrapper holding a nonzero integer [z] is the number
    of bits of its absolute value: [2 ^ (bits - 1) <= |z| < 2 ^ bits]; of 0
    it is 0. The wrapper is left as it was. *)
Theorem bit_length_bounds (self : instance) (z : Z) :
  _val self = Py.PyInt z ->
  exists bits : Z,
    bit_length self = (self, Py.Ok bits)
    /\ (z = 0 -> bits = 0)
    /\ (z <> 0 -> 2 ^ (bits - 1) <= Z.abs z < 2 ^ bits).
Proof.
  intros V. unfold bit_length, bind, get_val, ret. rewrite V.
  exists (Py.bit_length z). split; [reflexivity | ]. unfold Py.bit_length.
  destruct (Z.eqb_spec z 0) as [-> | NZ]; split; try easy.
  intros _. pose proof (Z.log2_spec (Z.abs z) ltac:(lia)) as S.
  replace (Z.log2 (Z.abs z) + 1 - 1) with (Z.log2 (Z.abs z)) by lia.
  exact S.
Qed.


End Facts.

End BytesFacts.

(* ================================================================== *)
(** * More on the integer chain *)
(* ================================================================== *)

Module ChainFacts.
Import IntegerConditionObserver.

Lemma eq_integers (a b : Z) : Py.eq (Py.PyInt a) (Py.PyInt b) = (a =? b).
Proof.
  unfold Py.eq, Py.compare.
  destruct (Z.compare_spec a b), (Z.eqb_spec a b); try reflexivity; lia.
Qed.

Lemma first_divisor_step (new_val d : Z) (rest : list Z) :
  first_divisor new_val (d :: rest)
  = if d =? 0 then Py.Raise (Py.host_error Py.ZeroDivisionError)
    else if new_val mod d =? 0 then Py.Ok (Some d)
         else first_divisor new_val rest.
Proof.
  cbn [first_divisor]. unfold Py.mod_, Py.arith.
  destruct (d =? 0); cbn [Py.bind]; [reflexivity | ].
  now rewrite eq_integers.
Qed.

(** Divisors that are not zero and do not divide are passed over. *)
Lemma first_divisor_skips (new_val : Z) (before after : list Z) :
  (forall x, In x before -> x <> 0 /\ new_val mod x <> 0) ->
  first_divisor new_val (before ++ after)%list = first_divisor new_val after.
Proof.
  induction before as [ | x before IH]; intros B; [reflexivity | ].
  cbn [app]. rewrite first_divisor_step.
  destruct (B x (or_introl eq_refl)) as [NZ ND].
  apply Z.eqb_neq in NZ, ND. rewrite NZ, ND.
  apply IH. intros y I. apply B. now right.
Qed.

(** Without a zero among them, the loop finds the first divisor that
    divides. *)
Lemma first_divisor_find (new_val : Z) (divisors : list Z) :
  ~ In 0 divisors ->
  first_divisor new_val divisors
  = Py.Ok (find (fun d => new_val mod d =? 0) divisors).
Proof.
  induction divisors as [ | d ds IH]; intros N; [reflexivity | ].
  rewrite first_divisor_step. cbn [find].
  destruct (Z.eqb_spec d 0) as [-> | _]; [exfalso; apply N; now left | ].
  destruct (new_val mod d =? 0); [reflexivity | ].
  apply IH. intros I. apply N. now right.
Qed.

Lemma find_existsb {A} (f : A -> bool) (l : list A) :
  existsb f l = match find f l with Some _ => true | None => false end.
Proof.
  induction l as [ | x l IH]; [reflexivity | ].
  cbn. destruct (f x); [reflexivity | exact IH].
Qed.

(** What the integer chain decides. When no configured divisor is zero, the
    evaluation returns, and the status it leaves is set exactly when the new
    value is a specific value, or is divisible by a divisor, or lies below the
    lower bound, or lies above the upper bound; the reason is [None] exactly
    when the status is not set. *)
Theorem integer_status_decided
    (self : instance) (new_val : Z) (method : string)
    (other previous : option Py.number) :
  (forall divisors, divisible_by self = Some divisors -> ~ In 0 divisors) ->
  let self' := fst (_update_status new_val method other previous self) in
  snd (_update_status new_val method other previous self) = Py.Ok Py.ONone
  /\ _status self'
     = (member new_val (at_specific_value self)
        || match divisible_by self with
           | Some divisors => existsb (fun d => new_val mod d =? 0) divisors
           | None => false
           end
        || match if_less_than self with
           | Some bound => new_val <? bound
           | None => false
           end
        || match if_more_than self with
           | Some bound => bound <? new_val
           | None => false
           end)
  /\ (_reason self' = None <-> _status self' = false).
Proof.
  intros N. cbv zeta. unfold _update_status.
  destruct (member new_val (at_specific_value self));
    [cbn; repeat split; discriminate | ].
  cbn [orb].
  assert (D : match divisible_by self with
              | Some divisors => first_divisor new_val divisors
              | None => Py.Ok None
              end
              = Py.Ok (match divisible_by self with
                       | Some divisors =>
                           find (fun d => new_val mod d =? 0) divisors
                       | None => None
                       end)).
  { destruct (divisible_by self) as [ds | ] eqn:E; [ | reflexivity].
    apply first_divisor_find, N. reflexivity. }
  rewrite D. clear D.
  destruct (divisible_by self) as [ds | ].
  - rewrite find_existsb.
    destruct (find (fun d => new_val mod d =? 0) ds) as [d | ];
      [cbn; repeat split; discriminate | ].
    cbn [orb]. unfold not_none_and.
    destruct (if_less_than self) as [lo | ];
      [destruct (new_val <? lo); [cbn; repeat split; discriminate | ] | ];
      (destruct (if_more_than self) as [hi | ];
       [destruct (hi <? new_val) | ]; cbn; repeat split; discriminate).
  - cbn [orb]. unfold not_none_and.
    destruct (if_less_than self) as [lo | ];
      [destruct (new_val <? lo); [cbn; repeat split; discriminate | ] | ];
      (destruct (if_more_than self) as [hi | ];
       [destruct (hi <? new_val) | ]; cbn; repeat split; discriminate).
Qed.

(** The divisors are tried in the order of the list: when the new value is
    no specific value, the divisors before [d] are not zero and do not divide
    it, and [d] is not zero and divides it, the status is set and the reason
    names [d], whatever comes after [d] in the list, a zero or another
    divisor included. *)
Theorem first_dividing_divisor_is_named
    (self : instance) (new_val d : Z) (before after : list Z)
    (method : string) (other previous : option Py.number) :
  member new_val (at_specific_value self) = false ->
  divisible_by self = Some (before ++ d :: after)%list ->
  (forall x, In x before -> x <> 0 /\ new_val mod x <> 0) ->
  d <> 0 ->
  new_val mod d = 0 ->
  let self' := fst (_update_status new_val method other previous self) in
  snd (_update_status new_val method other previous self) = Py.Ok Py.ONone
  /\ _status self' = true
  /\ _reason self'
     = Some ("Value " ++ Py.str_int new_val ++ " divisible by "
               ++ Py.str_int d).
Proof.
  intros M D B NZ DV. cbv zeta. unfold _update_status. rewrite M, D.
  rewrite (first_divisor_skips new_val before (d :: after) B).
  rewrite first_divisor_step.
  apply Z.eqb_neq in NZ. apply Z.eqb_eq in DV. rewrite NZ, DV.
  now cbn.
Qed.

(** A divisor 0 that is reached, the new value being no specific value and
    no divisor before the 0 dividing it, makes the evaluation raise a
    [ZeroDivisionError]; the observer then keeps the status and the reason of
    the evaluation before. *)
Theorem zero_divisor_raises
    (self : instance) (new_val : Z) (before after : list Z)
    (method : string) (other previous : option Py.number) :
  member new_val (at_specific_value self) = false ->
  divisible_by self = Some (before ++ 0 :: after)%list ->
  (forall x, In x before -> x <> 0 /\ new_val mod x <> 0) ->
  _update_status new_val method other previous self
  = (self, Py.Raise (Py.host_error Py.ZeroDivisionError)).
Proof.
  intros M D B. unfold _update_status. rewrite M, D.
  rewrite (first_divisor_skips new_val before (0 :: after) B).
  now rewrite first_divisor_step.
Qed.

Lemma chain_by_thresholds
    (a b : instance) (new_val : Z) (method : string)
    (other previous : option Py.number) :
  divisible_by a = divisible_by b ->
  if_less_than a = if_less_than b ->
  if_more_than a = if_more_than b ->
  at_specific_value a = at_specific_value b ->
  let a' := _update_status new_val method other previous a in
  let b' := _update_status new_val method other previous b in
  snd a' = snd b'
  /\ (Py.is_ok (snd a') = true ->
      _status (fst a') = _status (fst b')
      /\ _reason (fst a') = _reason (fst b')).
Proof.
  destruct a as [ca da la ma sa], b as [cb db lb mb sb]. cbn.
  intros -> -> -> ->. unfold _update_status.
  cbn [divisible_by if_less_than if_more_than at_specific_value].
  destruct (member new_val sb); [now cbn | ].
  destruct (match db with Some _ => _ | None => _ end) as [[d | ] | e];
    [now cbn | | cbn; split; [reflexivity | discriminate]].
  destruct (not_none_and lb _); [now cbn | ].
  destruct (not_none_and mb _); now cbn.
Qed.

(** The evaluation keeps no history: two observers with the same
    thresholds, whatever status and reason they hold, end every evaluation of
    the same value the same way, and when it returns they hold the same status
    and the same reason. *)
Theorem integer_chain_keeps_no_history
    (a b : instance) (new_val : Z) (method : string)
    (other previous : option Py.number) :
  divisible_by a = divisible_by b ->
  if_less_than a = if_less_than b ->
  if_more_than a = if_more_than b ->
  at_specific_value a = at_specific_value b ->
  let a' := _update_status new_val method other previous a in
  let b' := _update_status new_val method other previous b in
  snd a' = snd b'
  /\ (Py.is_ok (snd a') = true ->
      _status (fst a') = _status (fst b')
      /\ _reason (fst a') = _reason (fst b')).
Proof. apply chain_by_thresholds. Qed.

End ChainFacts.

(* ================================================================== *)
(** * More on the counter *)
(* ================================================================== *)

Module CounterFacts.
Import CounterConditionObserver.

(** The integer chain returns [None] whenever it returns. *)
Lemma integer_chain_returns_none new_val method other previous self o :
  snd (IntegerConditionObserver._update_status
         new_val method other previous self) = Py.Ok o ->
  o = Py.ONone.
Proof.
  unfold IntegerConditionObserver._update_status.
  destruct (IntegerConditionObserver.member _ _); [now intros [= <-] | ].
  destruct (match IntegerConditionObserver.divisible_by self with
            | Some _ => _ | None => _ end) as [[d | ] | e];
    [now intros [= <-] | | discriminate].
  destruct (IntegerConditionObserver.not_none_and
              (IntegerConditionObserver.if_less_than self) _);
    [now intros [= <-] | ].
  destruct (IntegerConditionObserver.not_none_and
              (IntegerConditionObserver.if_more_than self) _);
    now intros [= <-].
Qed.

(** A counter that does not trigger on the first count and has no last
    value is an integer observer: its evaluation is the integer chain on its
    base attributes, with the same outcome. *)
Theorem counter_without_counts_is_the_chain
    (self : instance) (new_val : Z) (method : string)
    (other previous : option Py.number) :
  if_first_iteration self = false ->
  last_value self = None ->
  let chain := IntegerConditionObserver._update_status
                 new_val method other previous (base self) in
  _update_status new_val method other previous self
  = (with_base self (fst chain), snd chain).
Proof.
  intros F L. cbv zeta. unfold _update_status.
  destruct (IntegerConditionObserver._update_status _ _ _ _ (base self))
    as [b [o | e]] eqn:C; [ | reflexivity].
  cbn [if_first_iteration last_value with_base fst snd].
  rewrite F, L. cbn.
  pose proof (integer_chain_returns_none new_val method other previous
                (base self) o) as N.
  rewrite C in N. now rewrite (N eq_refl).
Qed.

(** A step of zero is not guarded: when the relative branch is reached (the
    integer chain returned, the value is neither a first count that triggers
    nor the last value) and [round(last_value * at_relative)] is 0, the
    evaluation raises a [ZeroDivisionError], and the observer holds the status
    and the reason the integer chain has just written. *)
Theorem zero_step_raises
    (self : instance) (new_val l : Z) (r : float) (method : string)
    (other previous : option Py.number) :
  Py.is_ok (snd (IntegerConditionObserver._update_status
                   new_val method other previous (base self))) = true ->
  if_first_iteration self && (new_val =? first_val self) = false ->
  last_value self = Some l ->
  new_val <> l ->
  at_relative self = Some r ->
  relative_step l r = Py.Ok 0 ->
  _update_status new_val method other previous self
  = (with_base self
       (fst (IntegerConditionObserver._update_status
               new_val method other previous (base self))),
     Py.Raise (Py.host_error Py.ZeroDivisionError)).
Proof.
  intros R F L N A S. unfold _update_status.
  destruct (IntegerConditionObserver._update_status _ _ _ _ (base self))
    as [b [o | e]]; [ | discriminate].
  cbn [if_first_iteration first_val last_value at_relative with_base fst].
  apply Z.eqb_neq in N. rewrite F, L, N, A, S. reflexivity.
Qed.

(** "Every 0th" is refused at construction: with the integer 0 for
    [at_relative] the normalization [1. / float(0)] raises a
    [ZeroDivisionError], whatever the other arguments. *)
Theorem zero_relative_is_refused
    (name : option string) (observable_val : Z)
    (at_every : option (one_or_list Z)) (if_first_count : bool)
    (last_value if_less_than if_more_than : option Z)
    (at_specific_value : option (one_or_list (option Z))) (first_val : Z) :
  __init__ name observable_val at_every (Some (Py.PyInt 0)) if_first_count
           last_value if_less_than if_more_than at_specific_value first_val
  = Py.Raise (Py.host_error Py.ZeroDivisionError).
Proof. reflexivity. Qed.

(** The counter keeps no history either: two counters with the same
    configuration end every evaluation of the same value the same way, and
    when it returns they hold the same status and the same reason. *)
Theorem counter_keeps_no_history
    (a b : instance) (new_val : Z) (method : string)
    (other previous : option Py.number) :
  IntegerConditionObserver.divisible_by (base a)
  = IntegerConditionObserver.divisible_by (base b) ->
  IntegerConditionObserver.if_less_than (base a)
  = IntegerConditionObserver.if_less_than (base b) ->
  IntegerConditionObserver.if_more_than (base a)
  = IntegerConditionObserver.if_more_than (base b) ->
  IntegerConditionObserver.at_specific_value (base a)
  = IntegerConditionObserver.at_specific_value (base b) ->
  at_relative a = at_relative b ->
  if_first_iteration a = if_first_iteration b ->
  last_value a = last_value b ->
  first_val a = first_val b ->
  let a' := _update_status new_val method other previous a in
  let b' := _update_status new_val method other previous b in
  snd a' = snd b'
  /\ (Py.is_ok (snd a') = true ->
      _status (fst a') = _status (fst b')
      /\ _reason (fst a') = _reason (fst b')).
Proof.
  intros D L M S R F V W. cbv zeta.
  destruct (ChainFacts.chain_by_thresholds
              (base a) (base b) new_val method other previous D L M S)
    as [O K].
  unfold _update_status.
  destruct (IntegerConditionObserver._update_status _ _ _ _ (base a))
    as [ba [oa | ea]],
    (IntegerConditionObserver._update_status _ _ _ _ (base b))
    as [bb [ob | eb]]; cbn [fst snd] in O, K; try discriminate.
  - destruct (K eq_refl) as [KS KR].
    cbn [if_first_iteration first_val last_value at_relative with_base].
    rewrite <- R, <- F, <- V, <- W.
    destruct (if_first_iteration a && (new_val =? first_val a));
      [now cbn | ].
    destruct (match last_value a with Some _ => _ | None => false end);
      [now cbn | ].
    destruct (last_value a) as [l | ];
      [ | cbn; split; [reflexivity | intros _; now split]].
    destruct (at_relative a) as [r | ];
      [ | cbn; split; [reflexivity | intros _; now split]].
    destruct (relative_step l r) as [step | e];
      [ | cbn; split; [reflexivity | discriminate]].
    destruct (Py.mod_ _ _) as [m | e];
      [ | cbn; split; [reflexivity | discriminate]].
    destruct (Py.eq m _); cbn; (split; [reflexivity | intros _; split]);
      unfold _status, _reason, set_reason, with_base; cbn; try reflexivity;
      assumption.
  - cbn. split; [exact O | discriminate].
Qed.

End CounterFacts.

(* ================================================================== *)
(** * The further properties on the examples *)
(* ================================================================== *)

Module MoreScenarios.
Import Observable ObservableInteger.
#[local] Open Scope list_scope.

Lemma observer_with_zero_divisor_constructed :
  IntegerConditionObserver.__init__
    None 4 (Some (Several [3; 0; 5])) None None (Some (Single (Some 4)))
  = Py.Ok observer_with_zero_divisor.
Proof. reflexivity. Qed.

(** 7 floor-divided in place by 0. *)
Lemma seven_by_zero_changes_nothing :
  call (H := example_host) (IFloorDiv (Py.PyInt 0)) (wrapper 7 (PolicyStr "round"))
  = (wrapper 7 (PolicyStr "round"),
     Py.Raise (Py.host_error Py.ZeroDivisionError)).
Proof.
  apply (MutationFacts.failed_operator_changes_nothing (H := example_host)).
  reflexivity.
Defined.

(** 7 divided in place by 2 under a policy that is no keyword: 3.5 stays,
    nobody is told. *)
Lemma seven_halves_notify_nobody :
  let self := wrapper 7 (PolicyStr "Strict") in
  let after := call (H := example_host) (ITrueDiv (Py.PyInt 2)) self in
  notified (fst after) = notified self
  /\ (fst after = self
      \/ exists v,
           operator (H := example_host) (ITrueDiv (Py.PyInt 2)) (_val self)
           = Py.Ok v
           /\ Py.isinstance_int v = false
           /\ fst after = with_val v self).
Proof.
  apply (MutationFacts.failed_mutation_notifies_nobody
           (H := example_host) (ITrueDiv (Py.PyInt 2))
           (wrapper 7 (PolicyStr "Strict"))
           (not_an_integer "ObservableInteger" (Py.PyFloat 3.5))).
  vm_compute. reflexivity.
Defined.

(** 7 plus 5 in place under a policy that is no string and not callable. *)
Lemma seven_plus_five_without_policy :
  let self := wrapper 7 PolicyOther in
  let after := call (H := example_host) (IAdd (Py.PyInt 5)) self in
  snd after = Py.Ok Py.OSelf
  /\ _val (fst after) = Py.PyInt 12
  /\ notified (fst after)
     = notified self
         ++ [event "__iadd__" (Py.PyInt 5) (Py.PyInt 12)
               [("previous", Py.ONum (Py.PyInt 7))]].
Proof.
  apply (MutationFacts.integer_result_needs_no_policy
           (H := example_host) (IAdd (Py.PyInt 5)) (wrapper 7 PolicyOther)
           (Py.PyInt 12)); reflexivity.
Defined.

(** 4 divided in place by 2, an exact division, under a policy that is no
    keyword. *)
Lemma four_halves_need_a_policy :
  let self := wrapper 4 (PolicyStr "Strict") in
  Py.is_ok (snd (call (H := example_host) (ITrueDiv (Py.PyInt 2)) self)) = false
  /\ notified (fst (call (H := example_host) (ITrueDiv (Py.PyInt 2)) self))
     = notified self.
Proof.
  apply (MutationFacts.true_division_needs_a_policy
           (H := example_host) (Py.PyInt 2) (wrapper 4 (PolicyStr "Strict"))).
  reflexivity.
Defined.

(** [ObservableInteger(3.75)] holds 3. *)
Lemma wrapper_of_a_float :
  exists z : Z,
    Py.int (Py.PyFloat 3.75) = Py.Ok z
    /\ _val (wrapper 3 (PolicyStr "round")) = Py.PyInt z
    /\ final_value (wrapper 3 (PolicyStr "round")) = None
    /\ _incorrect_type_policy (wrapper 3 (PolicyStr "round"))
       = PolicyStr "round"
    /\ notified (wrapper 3 (PolicyStr "round")) = [].
Proof.
  apply (MutationFacts.constructed_wrapper_holds_integer
           (Some (Py.PyFloat 3.75)) None None (wrapper 3 (PolicyStr "round"))).
  vm_compute. reflexivity.
Defined.

(** -1000 on three signed bytes, the highest first, and back. *)
Lemma minus_thousand_round_trip :
  let self := wrapper (-1000) (PolicyStr "round") in
  self = self
  /\ exists z : Z,
       _val self = Py.PyInt z
       /\ from_bytes [Byte.xff; Byte.xfc; Byte.x18] "big" true self
          = (self, Py.Ok (if 3 =? 0 then 0 else z)).
Proof.
  apply (BytesFacts.to_bytes_then_from_bytes
           (Mem := example_memory) 3 "big" true (wrapper (-1000) (PolicyStr "round"))
           (wrapper (-1000) (PolicyStr "round"))
           [Byte.xff; Byte.xfc; Byte.x18]).
  reflexivity.
Defined.

(** 255 has eight bits. *)
Lemma bits_of_255 :
  exists bits : Z,
    bit_length (wrapper 255 (PolicyStr "round"))
    = (wrapper 255 (PolicyStr "round"), Py.Ok bits)
    /\ (255 = 0 -> bits = 0)
    /\ (255 <> 0 -> 2 ^ (bits - 1) <= Z.abs 255 < 2 ^ bits).
Proof.
  apply (BytesFacts.bit_length_bounds (wrapper 255 (PolicyStr "round")) 255).
  reflexivity.
Defined.


(** 9 on the integer observer: divisible by 3. *)
Lemma nine_is_decided :
  let after := IntegerConditionObserver._update_status
                 9 "__iadd__" (Some (Py.PyInt 1)) (Some (Py.PyInt 8))
                 integer_observer in
  snd after = Py.Ok Py.ONone
  /\ IntegerConditionObserver._status (fst after)
     = (IntegerConditionObserver.member 9 [Some 2; Some 6]
        || existsb (fun d => 9 mod d =? 0) [3; 7]
        || (9 <? -1)
        || (9 <? 9))
  /\ (IntegerConditionObserver._reason (fst after) = None
      <-> IntegerConditionObserver._status (fst after) = false).
Proof.
  apply (ChainFacts.integer_status_decided
           integer_observer 9 "__iadd__" (Some (Py.PyInt 1))
           (Some (Py.PyInt 8))).
  intros divisors [= <-] [E | [E | []]]; discriminate.
Defined.

(** 14 on the integer observer: 3 is passed over, 7 is named. *)
Lemma fourteen_names_seven :
  let after := IntegerConditionObserver._update_status
                 14 "set" (Some (Py.PyInt 14)) (Some (Py.PyInt 0))
                 integer_observer in
  snd after = Py.Ok Py.ONone
  /\ IntegerConditionObserver._status (fst after) = true
  /\ IntegerConditionObserver._reason (fst after)
     = Some "Value 14 divisible by 7".
Proof.
  apply (ChainFacts.first_dividing_divisor_is_named
           integer_observer 14 7 [3] [] "set" (Some (Py.PyInt 14))
           (Some (Py.PyInt 0))).
  - reflexivity.
  - reflexivity.
  - intros x [<- | []]. split; discriminate.
  - discriminate.
  - reflexivity.
Defined.

(** 7 on the observer with a zero divisor: 3 is passed over, 0 raises, and
    the reason of the construction stays. *)
Lemma seven_reaches_the_zero_divisor :
  IntegerConditionObserver._update_status
    7 "set" (Some (Py.PyInt 7)) (Some (Py.PyInt 4)) observer_with_zero_divisor
  = (observer_with_zero_divisor,
     Py.Raise (Py.host_error Py.ZeroDivisionError)).
Proof.
  apply (ChainFacts.zero_divisor_raises
           observer_with_zero_divisor 7 [3] [5]).
  - reflexivity.
  - reflexivity.
  - intros x [<- | []]. split; discriminate.
Defined.

(** The integer observer as constructed, and as it is after evaluating 6,
    agree on 9. *)
Lemma history_does_not_matter :
  let a := integer_observer in
  let b := fst (IntegerConditionObserver._update_status
                  6 "set" (Some (Py.PyInt 6)) (Some (Py.PyInt (-2))) a) in
  let a' := IntegerConditionObserver._update_status
              9 "set" (Some (Py.PyInt 9)) (Some (Py.PyInt 6)) a in
  let b' := IntegerConditionObserver._update_status
              9 "set" (Some (Py.PyInt 9)) (Some (Py.PyInt 6)) b in
  snd a' = snd b'
  /\ (Py.is_ok (snd a') = true ->
      IntegerConditionObserver._status (fst a')
      = IntegerConditionObserver._status (fst b')
      /\ IntegerConditionObserver._reason (fst a')
         = IntegerConditionObserver._reason (fst b')).
Proof.
  apply (ChainFacts.integer_chain_keeps_no_history
           integer_observer
           (fst (IntegerConditionObserver._update_status
                   6 "set" (Some (Py.PyInt 6)) (Some (Py.PyInt (-2)))
                   integer_observer))); reflexivity.
Defined.

(** A counter with neither first nor last count, on 3. *)
Lemma plain_counter_is_the_chain :
  let self := counter_observer (Some [3]) false None false None in
  let chain := IntegerConditionObserver._update_status
                 3 "set" (Some (Py.PyInt 3)) (Some (Py.PyInt 1))
                 (CounterConditionObserver.base self) in
  CounterConditionObserver._update_status
    3 "set" (Some (Py.PyInt 3)) (Some (Py.PyInt 1)) self
  = (CounterConditionObserver.with_base self (fst chain), snd chain).
Proof.
  apply (CounterFacts.counter_without_counts_is_the_chain
           (counter_observer (Some [3]) false None false None));
    reflexivity.
Defined.

(** The counter of one count has the step [round(0 * 0.5) = 0]: 5 raises. *)
Lemma five_on_the_counter_of_one :
  CounterConditionObserver._update_status
    5 "set" (Some (Py.PyInt 5)) (Some (Py.PyInt 0)) counter_of_one
  = (CounterConditionObserver.with_base counter_of_one
       (fst (IntegerConditionObserver._update_status
               5 "set" (Some (Py.PyInt 5)) (Some (Py.PyInt 0))
               (CounterConditionObserver.base counter_of_one))),
     Py.Raise (Py.host_error Py.ZeroDivisionError)).
Proof.
  apply (CounterFacts.zero_step_raises counter_of_one 5 0 0.5%float).
  - reflexivity.
  - reflexivity.
  - reflexivity.
  - discriminate.
  - reflexivity.
  - vm_compute. reflexivity.
Defined.

(** The counter to ten as constructed, and as it is after evaluating 0,
    agree on 10. *)
Lemma counter_history_does_not_matter :
  let a := counter_to_ten in
  let b := fst (CounterConditionObserver._update_status
                  0 "set" (Some (Py.PyInt 0)) (Some (Py.PyInt 1)) a) in
  let a' := CounterConditionObserver._update_status
              10 "set" (Some (Py.PyInt 10)) (Some (Py.PyInt 0)) a in
  let b' := CounterConditionObserver._update_status
              10 "set" (Some (Py.PyInt 10)) (Some (Py.PyInt 0)) b in
  snd a' = snd b'
  /\ (Py.is_ok (snd a') = true ->
      CounterConditionObserver._status (fst a')
      = CounterConditionObserver._status (fst b')
      /\ CounterConditionObserver._reason (fst a')
         = CounterConditionObserver._reason (fst b')).
Proof.
  apply (CounterFacts.counter_keeps_no_history
           counter_to_ten
           (fst (CounterConditionObserver._update_status
                   0 "set" (Some (Py.PyInt 0)) (Some (Py.PyInt 1))
                   counter_to_ten))); reflexivity.
Defined.

(** 5 on the counter to ten: the integer chain sets the status for the
    divisor 5, the relative branch replaces the reason and returns [True]. *)
Lemma five_on_the_counter_to_ten :
  let after := CounterConditionObserver._update_status
                 5 "__iadd__" (Some (Py.PyInt 1)) (Some (Py.PyInt 4))
                 counter_to_ten in
  snd after = Py.Ok (Py.OBool true)
  /\ CounterConditionObserver._reason (fst after)
     = Some (CounterConditionObserver.relative_reason 5 0.5)
  /\ CounterConditionObserver._status (fst after)
     = IntegerConditionObserver._status
         (fst (IntegerConditionObserver._update_status
                 5 "__iadd__" (Some (Py.PyInt 1)) (Some (Py.PyInt 4))
                 (CounterConditionObserver.base counter_to_ten))).
Proof.
  apply (CounterConditionObserverFacts.counter_relative
           5 "__iadd__" (Some (Py.PyInt 1)) (Some (Py.PyInt 4))
           counter_to_ten 10 0.5%float 5).
  - reflexivity.
  - reflexivity.
  - reflexivity.
  - discriminate.
  - reflexivity.
  - vm_compute. reflexivity.
  - discriminate.
  - reflexivity.
Defined.

End MoreScenarios.
